(** * WhatsApp sales assistant: session store and prompt assembly

    A shallow embedding of the core of [src/app.py]: the
    [ConversationManager] (a typed layer over a Redis store with per-key
    expiry), [BusinessContext] (the static catalogue and the system prompt
    rendered from it), [detect_language] and [generate_response].

    The external collaborators (the Redis server, the chat-completion
    endpoint and the passing of time) are modelled by an explicit [World]
    that every operation threads through a small state-and-exception
    monad. *)

From Stdlib Require Import Ascii DecimalString.
From stdpp Require Import gmap strings list fin_maps.


(** ** Python strings

    A character is a code point below 256; that is enough for every
    literal of the program, and the string methods below follow Python's
    [str] on that range. *)

Module PyStr.

Definition dquote : string := String "034"%char "".
Definition backslash : string := String "092"%char "".
Definition newline : string := String "010"%char "".

(** [str.isspace] on one character: U+0009..U+000D, U+001C..U+0020,
    U+0085 and U+00A0. *)
Definition is_space (c : ascii) : bool :=
  let n := nat_of_ascii c in
  ((9 <=? n) && (n <=? 13)) || ((28 <=? n) && (n <=? 32))
  || (n =? 133) || (n =? 160).

Fixpoint lstrip (s : string) : string :=
  match s with
  | "" => ""
  | String c s' => if is_space c then lstrip s' else s
  end.

Fixpoint rstrip (s : string) : string :=
  match s with
  | "" => ""
  | String c s' =>
      match rstrip s' with
      | "" => if is_space c then "" else String c ""
      | r => String c r
      end
  end.

(** [s.strip()] *)
Definition strip (s : string) : string := rstrip (lstrip s).

(** [str.lower] on one character: A..Z and the upper-case letters of
    U+00C0..U+00DE (all but the multiplication sign U+00D7) move up by
    32; everything else is kept. *)
Definition lower_char (c : ascii) : ascii :=
  let n := nat_of_ascii c in
  if ((65 <=? n) && (n <=? 90))
     || ((192 <=? n) && (n <=? 222) && negb (n =? 215))
  then ascii_of_nat (n + 32) else c.

(** [s.lower()] *)
Fixpoint lower (s : string) : string :=
  match s with
  | "" => ""
  | String c s' => String (lower_char c) (lower s')
  end.

(** Truth value of an optional string: [None] and [''] are false. *)
Definition truthy (o : option string) : bool :=
  match o with
  | Some s => negb (String.eqb s "")
  | None => false
  end.

(** [str(n)] for an integer. *)
Definition of_Z (z : Z) : string := NilZero.string_of_int (Z.to_int z).

(** [l[-n:]] for a positive [n]: the last [n] elements, the whole list
    when it has fewer. *)
Definition last_n {A} (n : nat) (l : list A) : list A :=
  drop (length l - n) l.

End PyStr.

(** ** [json.dumps] with its default separators and [ensure_ascii] *)

Module Json.

#[local] Set Warnings "-register-all".
Inductive value :=
| JInt (z : Z)
| JStr (s : string)
| JArr (items : list value)
| JObj (fields : list (string * value)).

Definition hex_digit (n : nat) : ascii :=
  if n <? 10 then ascii_of_nat (48 + n) else ascii_of_nat (87 + n).

Definition escape_char (c : ascii) : string :=
  let n := nat_of_ascii c in
  if n =? 34 then PyStr.backslash +:+ PyStr.dquote
  else if n =? 92 then PyStr.backslash +:+ PyStr.backslash
  else if n =? 10 then PyStr.backslash +:+ "n"
  else if n =? 13 then PyStr.backslash +:+ "r"
  else if n =? 9 then PyStr.backslash +:+ "t"
  else if n =? 8 then PyStr.backslash +:+ "b"
  else if n =? 12 then PyStr.backslash +:+ "f"
  else if (n <? 32) || (126 <? n)
       then PyStr.backslash +:+ "u00"
            +:+ String (hex_digit (n / 16)) (String (hex_digit (n mod 16)) "")
  else String c "".

Fixpoint escape (s : string) : string :=
  match s with
  | "" => ""
  | String c s' => escape_char c +:+ escape s'
  end.

Definition quoted (s : string) : string :=
  PyStr.dquote +:+ escape s +:+ PyStr.dquote.

Fixpoint dumps (j : value) : string :=
  match j with
  | JInt z => PyStr.of_Z z
  | JStr s => quoted s
  | JArr items =>
      "[" +:+
      (fix go (l : list value) : string :=
         match l with
         | [] => ""
         | x :: l' =>
             dumps x +:+ match l' with [] => "" | _ => ", " +:+ go l' end
         end) items
      +:+ "]"
  | JObj fields =>
      "{" +:+
      (fix go (l : list (string * value)) : string :=
         match l with
         | [] => ""
         | (k, x) :: l' =>
             quoted k +:+ ": " +:+ dumps x
             +:+ match l' with [] => "" | _ => ", " +:+ go l' end
         end) fields
      +:+ "}"
  end.

End Json.

(** ** Data model *)

(** One user/assistant exchange, an element of [context["messages"]].
    [timestamp] is the instant [datetime.now()] returned, in seconds; the
    program stores its ISO rendering and never reads it back. [assistant]
    is what the model call gave as content: a string, or [None] (stored as
    a JSON null) when the reply had no content. *)
Record Turn := {
  timestamp : nat;
  user : string;
  assistant : option string
}.

(** The per-user dictionary kept under the key [context:<phone>].
    [language] is [None] when the key is missing or null, which is what
    [context.get("language")] tells apart from a string; [business_context]
    is the (always empty) dictionary the default carries. *)
Record Context := {
  messages : list Turn;
  language : option string;
  business_context : list (string * string)
}.

(** One entry of the list sent to the chat-completion endpoint; the
    content of a replayed assistant turn is [None] when that turn has
    none. *)
Record Message := {
  role : string;
  content : option string
}.

(** ** The world outside the process *)

(** The calls the program makes to its collaborators. *)
Inductive Call :=
| RedisGet (key : string)
| RedisSetex (key : string) (ttl : nat) (value : Context)
| ChatCompletion (model : string) (msgs : list Message)
                 (max_tokens : nat) (temperature_tenths : nat).

(** What a collaborator does with a call: it raises, or it answers. For a
    chat completion the answer carries [response.choices[0].message.content],
    which is a string or, when the response has no content, [None] (a
    malformed response makes that expression raise, and is a [Fault]); for
    a Redis command the answer carries nothing of interest, the store
    decides the reply. *)
Inductive Reply :=
| Fault
| Answer (text : option string).

(** One entry per external call, in the order of the calls: the seconds
    that pass until the call completes, and its outcome. *)
Record Step := {
  elapsed : nat;
  reply : Reply
}.

Record Event := {
  call : Call;
  outcome : Reply
}.

(** The Redis keyspace maps a key to its value and the instant at which it
    expires. The value is kept as the [Context] itself: [json.loads] gives
    back the dictionary [json.dumps] was given. [script] is the behaviour of
    the collaborators still to come; when it runs out they are unreachable.
    [trace] records the calls made so far. *)
Record World := {
  redis : gmap string (Context * nat);
  clock : nat;
  script : list Step;
  trace : list Event
}.

Inductive exn :=
| RedisError
| OpenAIError
| AttributeError.

Inductive Result (A : Type) :=
| Return (a : A)
| Raise (e : exn).
Arguments Return {A} a.
Arguments Raise {A} e.

(** ** State and exceptions *)

Definition M (A : Type) : Type := World -> Result A * World.

Definition ret {A} (a : A) : M A := fun w => (Return a, w).

Definition bind {A B} (m : M A) (k : A -> M B) : M B :=
  fun w =>
    match m w with
    | (Return a, w') => k a w'
    | (Raise e, w') => (Raise e, w')
    end.

Definition raise {A} (e : exn) : M A := fun w => (Raise e, w).

(** [try: m except Exception: h] *)
Definition try_except {A} (m : M A) (h : exn -> M A) : M A :=
  fun w =>
    match m w with
    | (Return a, w') => (Return a, w')
    | (Raise e, w') => h e w'
    end.

Declare Scope py_scope.
Delimit Scope py_scope with py.
Notation "x <- m ;; k" := (bind m (fun x => k))
  (at level 100, m at next level, right associativity) : py_scope.
Notation "m ;;; k" := (bind m (fun _ => k))
  (at level 100, right associativity) : py_scope.
Local Open Scope py_scope.

Definition exn_of (c : Call) : exn :=
  match c with
  | RedisGet _ | RedisSetex _ _ _ => RedisError
  | ChatCompletion _ _ _ _ => OpenAIError
  end.

(** An external call consumes the next step of the script: time passes,
    the call is recorded, and it raises or answers. *)
Definition external (c : Call) : M (option string) :=
  fun w =>
    match script w with
    | [] =>
        (Raise (exn_of c),
         {| redis := redis w; clock := clock w; script := [];
            trace := trace w ++ [{| call := c; outcome := Fault |}] |})
    | st :: rest =>
        let w' := {| redis := redis w; clock := clock w + elapsed st;
                     script := rest;
                     trace := trace w ++ [{| call := c; outcome := reply st |}] |} in
        match reply st with
        | Fault => (Raise (exn_of c), w')
        | Answer s => (Return s, w')
        end
    end.

(** A key is visible until its expiry instant is reached. Instants are
    whole seconds, and the second in which a key expires is counted as
    expired; Redis, which compares milliseconds, still serves a read made
    at exactly that instant. *)
Definition lookup_live (store : gmap string (Context * nat))
    (key : string) (now : nat) : option Context :=
  match store !! key with
  | Some (v, expires) => if now <? expires then Some v else None
  | None => None
  end.

(** [redis.get(key)] *)
Definition redis_get (key : string) : M (option Context) :=
  _ <- external (RedisGet key) ;;
  fun w => (Return (lookup_live (redis w) key (clock w)), w).

(** [redis.setex(key, ttl, value)] *)
Definition redis_setex (key : string) (ttl : nat) (value : Context) : M unit :=
  _ <- external (RedisSetex key ttl value) ;;
  fun w =>
    (Return tt,
     {| redis := <[key := (value, clock w + ttl)]> (redis w);
        clock := clock w; script := script w; trace := trace w |}).

(** [datetime.now()] *)
Definition datetime_now : M nat := fun w => (Return (clock w), w).

(** [openai.ChatCompletion.create(...)] followed by
    [.choices[0].message.content] *)
Definition chat_completion_content (model : string) (msgs : list Message)
    (max_tokens temperature_tenths : nat) : M (option string) :=
  external (ChatCompletion model msgs max_tokens temperature_tenths).

(** ** The program *)

(** Supported languages. *)
Definition LANGUAGE_MAP : gmap string string :=
  list_to_map
    [("en", "English"); ("ar", "Arabic"); ("fr", "French");
     ("sw", "Swahili"); ("ha", "Hausa"); ("yo", "Yoruba");
     ("am", "Amharic"); ("zu", "Zulu"); ("pt", "Portuguese")].

(** [code in LANGUAGE_MAP] *)
Definition in_LANGUAGE_MAP (code : string) : bool :=
  bool_decide (is_Some (LANGUAGE_MAP !! code)).

(** *** [ConversationManager] *)

Record ConversationManager := {
  context_ttl : nat
}.

(** [ConversationManager.__init__]; the Redis client is the [World]. *)
Definition ConversationManager_init : ConversationManager :=
  {| context_ttl := 3600 |}.

Definition context_key (phone_number : string) : string :=
  "context:" +:+ phone_number.

(** The dictionary [get_context] returns when Redis has nothing. *)
Definition default_context : Context :=
  {| messages := []; language := Some "en"; business_context := [] |}.

Definition get_context (self : ConversationManager) (phone_number : string)
    : M Context :=
  let key := context_key phone_number in
  context <- redis_get key ;;
  match context with
  | Some c => ret c
  | None => ret default_context
  end.

(** Lines 58-65: what [update_context] does to the dictionary it read. *)
Definition append_turn (context : Context) (now : nat)
    (message : string) (response lang : option string) : Context :=
  let appended :=
    messages context
    ++ [{| timestamp := now; user := message; assistant := response |}] in
  {| messages := PyStr.last_n 10 appended;
     language := if PyStr.truthy lang then lang else language context;
     business_context := business_context context |}.

Definition update_context (self : ConversationManager)
    (phone_number message : string) (response lang : option string)
    : M unit :=
  context <- get_context self phone_number ;;
  now <- datetime_now ;;
  redis_setex (context_key phone_number) (context_ttl self)
    (append_turn context now message response lang).

(** *** [BusinessContext] *)

Record BusinessInfo := {
  name : string;
  products : Json.value;
  faq : Json.value;
  working_hours : string
}.

Record BusinessContext := {
  business_id : string;
  info : BusinessInfo
}.

(** The value [load_business_info] assigns to [self.info]; [self] is known
    by its [business_id]. *)
Definition load_business_info (self_business_id : string) : BusinessInfo :=
  {| name := "Demo Store";
     products :=
       Json.JArr
         [Json.JObj [("id", Json.JInt 1); ("name", Json.JStr "Product A");
                     ("price", Json.JInt 100);
                     ("description", Json.JStr "High quality product A")];
          Json.JObj [("id", Json.JInt 2); ("name", Json.JStr "Product B");
                     ("price", Json.JInt 200);
                     ("description", Json.JStr "Premium product B")]];
     faq :=
       Json.JObj
         [("shipping", Json.JStr "We ship within 24 hours across the country");
          ("payment",
           Json.JStr "We accept mobile money, bank transfer, and cash on delivery");
          ("returns", Json.JStr "30-day return policy on all items")];
     working_hours := "Monday-Saturday, 9AM-6PM" |}.

(** [BusinessContext.__init__] *)
Definition BusinessContext_init (business_id : string) : BusinessContext :=
  {| business_id := business_id; info := load_business_info business_id |}.

(** [LANGUAGE_MAP.get(language, 'English')] *)
Definition language_name (lang : option string) : string :=
  default "English" (lang ≫= (LANGUAGE_MAP !!.)).

Definition get_system_prompt (self : BusinessContext) (lang : option string)
    : string :=
  "You are a helpful sales assistant for " +:+ name (info self) +:+ ". "
  +:+ PyStr.newline
  +:+ "Respond in " +:+ language_name lang +:+ "." +:+ PyStr.newline
  +:+ "Products: " +:+ Json.dumps (products (info self)) +:+ PyStr.newline
  +:+ "FAQ: " +:+ Json.dumps (faq (info self)) +:+ PyStr.newline
  +:+ "Working Hours: " +:+ working_hours (info self) +:+ PyStr.newline
  +:+ "Be friendly, concise, and helpful. Keep it short for WhatsApp.".

(** *** The module-level functions *)

Definition conv_manager : ConversationManager := ConversationManager_init.

Definition detection_prompt : string :=
  "Detect the language of the text and return only the ISO code like 'en'.".

Definition detection_messages (text : string) : list Message :=
  [{| role := "system"; content := Some detection_prompt |};
   {| role := "user"; content := Some text |}].

(** [content.strip()] raises when the content is [None]; the handler's
    [logger.error] leaves no mark on the [World]. *)
Definition detect_language (text : string) : M string :=
  try_except
    (response <- chat_completion_content "gpt-3.5-turbo"
                   (detection_messages text) 10 0 ;;
     match response with
     | None => raise AttributeError
     | Some content =>
         let lang_code := PyStr.lower (PyStr.strip content) in
         ret (if in_LANGUAGE_MAP lang_code then lang_code else "en")
     end)
    (fun _ => ret "en").

(** Lines 119-120: detect unless the session has a language and a
    history. *)
Definition needs_detection (context : Context) : bool :=
  negb (PyStr.truthy (language context))
  || (length (messages context) =? 0).

Definition resolve_language (context : Context) (message : string)
    : M Context :=
  if needs_detection context
  then
    lang <- detect_language message ;;
    ret {| messages := messages context; language := Some lang;
           business_context := business_context context |}
  else ret context.

(** Lines 124-128: the list sent to the model, built by appending. *)
Definition build_messages (system_prompt : string) (history : list Turn)
    (message : string) : list Message :=
  let messages := [{| role := "system"; content := Some system_prompt |}] in
  let messages :=
    fold_left
      (fun acc msg =>
         (acc ++ [{| role := "user"; content := Some (user msg) |}])
         ++ [{| role := "assistant"; content := assistant msg |}])
      (PyStr.last_n 5 history) messages in
  messages ++ [{| role := "user"; content := Some message |}].

Definition apology : string :=
  "Sorry, I'm having trouble responding. Please try again later.".

Definition generate_response_body (message phone_number business_id : string)
    : M (option string) :=
  context <- get_context conv_manager phone_number ;;
  context <- resolve_language context message ;;
  let business := BusinessContext_init business_id in
  let messages :=
    build_messages (get_system_prompt business (language context))
      (messages context) message in
  ai_response <- chat_completion_content "gpt-3.5-turbo" messages 200 7 ;;
  update_context conv_manager phone_number message ai_response
    (language context) ;;;
  ret ai_response.

(** The reply is the content of the model's answer as it came, a string
    or [None], or the apology. *)
Definition generate_response (message phone_number business_id : string)
    : M (option string) :=
  try_except (generate_response_body message phone_number business_id)
    (fun _ => ret (Some apology)).

(** *** The webhook *)

(** Twilio's [MessagingResponse]: the bodies of the [<Message>] verbs added
    so far; a verb added with [None] has no body. *)
Record MessagingResponse := {
  bodies : list (option string)
}.

Definition MessagingResponse_init : MessagingResponse := {| bodies := [] |}.

(** [resp.message(text)] *)
Definition add_message (resp : MessagingResponse) (text : option string)
    : MessagingResponse :=
  {| bodies := bodies resp ++ [text] |}.

Definition webhook_error : string := "An error occurred. Please try again.".

Section Webhook.

(** [str(resp)], the TwiML rendering, is Twilio's. *)
Variable str_response : MessagingResponse -> string.

(** [values] is [request.values]; the two [logger] calls leave no mark on
    the [World]. *)
Definition webhook (values : gmap string string) : M string :=
  try_except
    (let incoming_msg := PyStr.strip (default "" (values !! "Body")) in
     let from_number := default "" (values !! "From") in
     response_text <- generate_response incoming_msg from_number "demo" ;;
     let resp := MessagingResponse_init in
     let resp := add_message resp response_text in
     ret (str_response resp))
    (fun _ =>
       let resp := MessagingResponse_init in
       let resp := add_message resp (Some webhook_error) in
       ret (str_response resp)).

End Webhook.

(** ** Specification-side vocabulary *)

(** The codes the specification calls the fixed supported set. *)
Definition supported_codes : list string :=
  ["en"; "ar"; "fr"; "sw"; "ha"; "yo"; "am"; "zu"; "pt"].

(** The [k] most recent elements of an oldest-first list, oldest first. *)
Definition most_recent {A} (k : nat) (l : list A) : list A :=
  reverse (take k (reverse l)).

(** One stored turn as the user/assistant pair of the prompt. *)
Definition turn_pair (t : Turn) : list Message :=
  [{| role := "user"; content := Some (user t) |};
   {| role := "assistant"; content := assistant t |}].

(** What [get_context] answers at instant [now], Redis permitting. *)
Definition view (store : gmap string (Context * nat)) (phone_number : string)
    (now : nat) : Context :=
  default default_context (lookup_live store (context_key phone_number) now).

Definition ev (c : Call) (r : Reply) : Event := {| call := c; outcome := r |}.

(** The two calls to the chat-completion endpoint, as the program makes
    them. *)
Definition detection_call (text : string) : Call :=
  ChatCompletion "gpt-3.5-turbo" (detection_messages text) 10 0.

Definition model_call (msgs : list Message) : Call :=
  ChatCompletion "gpt-3.5-turbo" msgs 200 7.

(** The detection result after [.strip().lower()]. *)
Definition normalized (raw : string) : string := PyStr.lower (PyStr.strip raw).

(** A run that leaves the store alone, lets time pass and adds [evs] to
    the trace. *)
Definition quiet (w w' : World) (evs : list Event) : Prop :=
  redis w' = redis w /\ clock w <= clock w' /\ trace w' = trace w ++ evs.

(** A run that writes [value] under [key] as its last act. *)
Definition wrote (w w' : World) (key : string) (ttl : nat) (value : Context)
    (evs : list Event) : Prop :=
  redis w' = <[key := (value, clock w' + ttl)]> (redis w)
  /\ clock w <= clock w' /\ trace w' = trace w ++ evs.

(** What [detect_language] makes of the endpoint's reply. *)
Definition detected (rep : Reply) : string :=
  match rep with
  | Fault | Answer None => "en"
  | Answer (Some raw) =>
      if in_LANGUAGE_MAP (normalized raw) then normalized raw else "en"
  end.

Definition with_language (c : Context) (code : string) : Context :=
  {| messages := messages c; language := Some code;
     business_context := business_context c |}.

(** The session [generate_response] works with once the language is
    resolved, and the call that resolution costs. *)
Definition resolved (c : Context) (rep : Reply) : Context :=
  if needs_detection c then with_language c (detected rep) else c.

Definition detection_events (c : Context) (message : string) (rep : Reply)
    : list Event :=
  if needs_detection c then [ev (detection_call message) rep] else [].

Definition prompt_for (business_id : string) (c : Context) (message : string)
    : list Message :=
  build_messages
    (get_system_prompt (BusinessContext_init business_id) (language c))
    (messages c) message.

(** The five ways a request can go: the reply [r] it returns and what the
    run from [w] to [w'] did. [t1] and [t2] are the instants of the two
    reads of the session. *)
Inductive served (message phone business_id : string) (w w' : World)
    (r : option string) : Prop :=
| served_read_failed :
    r = Some apology ->
    quiet w w' [ev (RedisGet (context_key phone)) Fault] ->
    served message phone business_id w w' r
| served_model_failed a1 t1 rep :
    let c := view (redis w) phone t1 in
    r = Some apology ->
    clock w <= t1 <= clock w' ->
    quiet w w'
      (ev (RedisGet (context_key phone)) (Answer a1)
       :: detection_events c message rep
       ++ [ev (model_call (prompt_for business_id (resolved c rep) message))
             Fault]) ->
    served message phone business_id w w' r
| served_reread_failed a1 t1 rep s :
    let c := view (redis w) phone t1 in
    r = Some apology ->
    clock w <= t1 <= clock w' ->
    quiet w w'
      (ev (RedisGet (context_key phone)) (Answer a1)
       :: detection_events c message rep
       ++ [ev (model_call (prompt_for business_id (resolved c rep) message))
             (Answer s);
           ev (RedisGet (context_key phone)) Fault]) ->
    served message phone business_id w w' r
| served_write_failed a1 t1 rep s a2 t2 :
    let c := view (redis w) phone t1 in
    let value :=
      append_turn (view (redis w) phone t2) t2 message s
        (language (resolved c rep)) in
    r = Some apology ->
    clock w <= t1 <= t2 -> t2 <= clock w' ->
    quiet w w'
      (ev (RedisGet (context_key phone)) (Answer a1)
       :: detection_events c message rep
       ++ [ev (model_call (prompt_for business_id (resolved c rep) message))
             (Answer s);
           ev (RedisGet (context_key phone)) (Answer a2);
           ev (RedisSetex (context_key phone) 3600 value) Fault]) ->
    served message phone business_id w w' r
| served_completed a1 t1 rep a2 t2 a3 :
    let c := view (redis w) phone t1 in
    let value :=
      append_turn (view (redis w) phone t2) t2 message r
        (language (resolved c rep)) in
    clock w <= t1 <= t2 -> t2 <= clock w' ->
    wrote w w' (context_key phone) 3600 value
      (ev (RedisGet (context_key phone)) (Answer a1)
       :: detection_events c message rep
       ++ [ev (model_call (prompt_for business_id (resolved c rep) message))
             (Answer r);
           ev (RedisGet (context_key phone)) (Answer a2);
           ev (RedisSetex (context_key phone) 3600 value) (Answer a3)]) ->
    served message phone business_id w w' r.

(** The events a run added to the trace. *)
Definition new_events (w w' : World) : list Event :=
  drop (length (trace w)) (trace w').

Definition is_storage_call (c : Call) : bool :=
  match c with
  | RedisGet _ | RedisSetex _ _ _ => true
  | ChatCompletion _ _ _ _ => false
  end.

(** The two uses of the chat-completion endpoint differ in their
    parameters: the reply is asked for with [max_tokens=200]. *)
Definition is_model_call (c : Call) : bool :=
  match c with
  | ChatCompletion _ _ max_tokens _ => max_tokens =? 200
  | _ => false
  end.

Definition failed (e : Event) : bool :=
  match outcome e with Fault => true | Answer _ => false end.

(** Every stored session carries a supported language. *)
Definition store_supported (store : gmap string (Context * nat)) : Prop :=
  forall key c expires,
    store !! key = Some (c, expires) ->
    exists code, language c = Some code /\ code ∈ supported_codes.

(** A failure that the request does not survive. *)
Definition fatal (e : Event) : bool :=
  failed e && (is_storage_call (call e) || is_model_call (call e)).

(** A step that answers, and does so before a session written just
    before it could expire. *)
Definition timely (st : Step) : Prop :=
  elapsed st < 3600 /\ reply st <> Fault.

Definition exchange (t : Turn) : string * option string :=
  (user t, assistant t).

(** ** Drivers: several calls in a row *)

Record Put := {
  put_message : string;
  put_response : option string;
  put_language : option string
}.

Definition put_exchange (p : Put) : string * option string :=
  (put_message p, put_response p).

(** [update_context] called once per element, for one phone number. *)
Fixpoint put_all (phone : string) (puts : list Put) : M unit :=
  match puts with
  | [] => ret tt
  | p :: rest =>
      update_context conv_manager phone (put_message p) (put_response p)
        (put_language p) ;;;
      put_all phone rest
  end.

Record Request := {
  req_message : string;
  req_phone : string;
  req_business : string
}.

(** [generate_response] called once per inbound message; the world the
    last request leaves behind. *)
Fixpoint serve_all (reqs : list Request) (w : World) : World :=
  match reqs with
  | [] => w
  | q :: rest =>
      serve_all rest
        (generate_response (req_message q) (req_phone q) (req_business q) w).2
  end.

(** ** Sample worlds *)

Definition answers (seconds : nat) (text : string) : Step :=
  {| elapsed := seconds; reply := Answer (Some text) |}.

(** An answer without content. *)
Definition answers_null (seconds : nat) : Step :=
  {| elapsed := seconds; reply := Answer None |}.

Definition fails (seconds : nat) : Step :=
  {| elapsed := seconds; reply := Fault |}.

Definition sample_turn (n : nat) : Turn :=
  {| timestamp := n; user := "hi"; assistant := Some "hello" |}.

(** Nothing stored; the collaborators will behave as [steps]. *)
Definition fresh_world (steps : list Step) : World :=
  {| redis := ∅; clock := 1000; script := steps; trace := [] |}.

(** One session for [+15550100], written at instant 500. *)
Definition stored_world (c : Context) (now : nat) (steps : list Step) : World :=
  {| redis := {[ context_key "+15550100" := (c, 500 + 3600) ]};
     clock := now; script := steps; trace := [] |}.

Definition french_session : Context :=
  {| messages := [sample_turn 400; sample_turn 500];
     language := Some "fr"; business_context := [] |}.

Definition sample_put (i : nat) : Put :=
  {| put_message := "question " +:+ PyStr.of_Z (Z.of_nat i);
     put_response := Some ("answer " +:+ PyStr.of_Z (Z.of_nat i));
     put_language := None |}.

Definition sample_puts (n : nat) : list Put := sample_put <$> seq 0 n.

(** A stored French session at instant 600; Redis answers and the model
    call fails. *)
Definition model_down_world : World :=
  stored_world french_session 600 [answers 1 ""; fails 2].

(** Nothing stored; the detection call fails and everything else
    answers. *)
Definition detection_down_world : World :=
  fresh_world
    [answers 0 ""; fails 1; answers 2 "Hello!"; answers 0 ""; answers 0 ""].

Definition sample_requests : list Request :=
  [{| req_message := "Bonjour"; req_phone := "+15550100";
      req_business := "demo" |};
   {| req_message := "Merci"; req_phone := "+15550100";
      req_business := "demo" |}].

Definition two_requests_world : World :=
  fresh_world
    [answers 0 ""; answers 1 " FR "; answers 2 "Salut!"; answers 0 "";
     answers 0 ""; answers 5 ""; answers 2 "De rien."; answers 0 "";
     answers 0 ""].

(** ** Further vocabulary *)

(** A string of whitespace only (possibly empty). *)
Fixpoint blank (s : string) : bool :=
  match s with
  | "" => true
  | String c s' => PyStr.is_space c && blank s'
  end.

Definition is_write_call (c : Call) : bool :=
  match c with
  | RedisSetex _ _ _ => true
  | _ => false
  end.

(** Every stored session has between one and ten turns and a supported
    language. *)
Definition store_wellformed (store : gmap string (Context * nat)) : Prop :=
  forall key c expires,
    store !! key = Some (c, expires) ->
    1 <= length (messages c) <= 10
    /\ exists code, language c = Some code /\ code ∈ supported_codes.

(** [generate_response] called once per message of one phone number; the
    replies, in order. *)
Fixpoint converse (phone business_id : string) (msgs : list string)
    : M (list (option string)) :=
  match msgs with
  | [] => ret []
  | m :: rest =>
      r <- generate_response m phone business_id ;;
      rs <- converse phone business_id rest ;;
      ret (r :: rs)
  end.

(** A rendering of the response, for the examples. *)
Definition sample_str (resp : MessagingResponse) : string :=
  String.concat "|" (default "" <$> bodies resp).

(** ** Lists: the slice [l[-n:]] *)

Section LastN.
Context {A : Type}.
Implicit Types (l k : list A) (n : nat).

Lemma length_last_n n l : length (PyStr.last_n n l) = Nat.min n (length l).
Proof. unfold PyStr.last_n. rewrite length_drop. lia. Qed.

Lemma last_n_short n l : length l <= n -> PyStr.last_n n l = l.
Proof.
  intros H. unfold PyStr.last_n.
  replace (length l - n) with 0 by lia. reflexivity.
Qed.

Lemma last_n_suffix n l : exists evicted,
    l = evicted ++ PyStr.last_n n l /\ length evicted = length l - n.
Proof.
  exists (take (length l - n) l). split.
  - unfold PyStr.last_n. symmetry. apply take_drop.
  - rewrite length_take. lia.
Qed.

Lemma last_n_app n l k :
  PyStr.last_n n (PyStr.last_n n l ++ k) = PyStr.last_n n (l ++ k).
Proof.
  unfold PyStr.last_n.
  rewrite !length_app, length_drop.
  set (d := length l - n).
  assert (Hd : d <= length l) by lia.
  transitivity (drop (length l + length k - n) ((take d l ++ drop d l) ++ k)).
  - rewrite <- app_assoc.
    rewrite (drop_app_ge (take d l)) by (rewrite length_take; lia).
    rewrite length_take. f_equal. lia.
  - by rewrite take_drop.
Qed.

Lemma most_recent_last_n n l :
  most_recent (Nat.min n (length l)) l = PyStr.last_n n l.
Proof.
  unfold most_recent, PyStr.last_n.
  rewrite take_reverse, reverse_involutive. f_equal. lia.
Qed.
End LastN.

Lemma fold_left_pairs (l : list Turn) (acc : list Message) :
  fold_left
    (fun acc msg =>
       (acc ++ [{| role := "user"; content := Some (user msg) |}])
       ++ [{| role := "assistant"; content := assistant msg |}])
    l acc
  = acc ++ flat_map turn_pair l.
Proof.
  revert acc. induction l as [|t l IH]; intros acc; simpl.
  - by rewrite app_nil_r.
  - rewrite IH. by rewrite <- !app_assoc.
Qed.

Lemma length_flat_map_turn_pair (l : list Turn) :
  length (flat_map turn_pair l) = 2 * length l.
Proof. induction l as [|t l IH]; simpl; lia. Qed.

(** C6. The assembled prompt is the system message, then the
    [min 5 (length history)] most recent turns as user/assistant pairs,
    oldest first, then the new user message; at most five prior turns
    are ever included, whatever the length of the stored history. *)
Theorem prompt_assembly_shape (system_prompt : string) (history : list Turn)
    (message : string) :
  let window := most_recent (Nat.min 5 (length history)) history in
  build_messages system_prompt history message
  = {| role := "system"; content := Some system_prompt |}
      :: flat_map turn_pair window
      ++ [{| role := "user"; content := Some message |}]
  /\ length window = Nat.min 5 (length history)
  /\ length window <= 5
  /\ length (build_messages system_prompt history message)
     = 2 * Nat.min 5 (length history) + 2.
Proof.
  intros window. subst window.
  rewrite most_recent_last_n, length_last_n.
  unfold build_messages. rewrite fold_left_pairs.
  repeat split; [lia|].
  simpl. rewrite length_app, length_flat_map_turn_pair, length_last_n.
  simpl. lia.
Qed.

(** C10. The business profile and the rendered system prompt do not
    depend on the business identifier: for any two identifiers and any
    language the prompt is the same text. *)
Theorem system_prompt_ignores_business_id (b1 b2 : string)
    (lang : option string) :
  info (BusinessContext_init b1) = info (BusinessContext_init b2)
  /\ get_system_prompt (BusinessContext_init b1) lang
     = get_system_prompt (BusinessContext_init b2) lang.
Proof. split; reflexivity. Qed.

(** ** Runs of the primitive operations *)

Arguments get_system_prompt : simpl never.
Arguments in_LANGUAGE_MAP : simpl never.
Arguments PyStr.last_n : simpl never.

Lemma quiet_refl w : quiet w w [].
Proof. unfold quiet. by rewrite app_nil_r. Qed.

Lemma quiet_trans w1 w2 w3 e1 e2 :
  quiet w1 w2 e1 -> quiet w2 w3 e2 -> quiet w1 w3 (e1 ++ e2).
Proof.
  intros (Hr1 & Hc1 & Ht1) (Hr2 & Hc2 & Ht2). unfold quiet.
  rewrite Hr2, Hr1, Ht2, Ht1, app_assoc. repeat split; lia.
Qed.

Lemma quiet_wrote w1 w2 w3 e1 e2 key ttl value :
  quiet w1 w2 e1 -> wrote w2 w3 key ttl value e2 ->
  wrote w1 w3 key ttl value (e1 ++ e2).
Proof.
  intros (Hr1 & Hc1 & Ht1) (Hr2 & Hc2 & Ht2). unfold wrote.
  rewrite Hr2, Hr1, Ht2, Ht1, app_assoc. repeat split; lia.
Qed.

Lemma new_events_app w w' evs :
  trace w' = trace w ++ evs -> new_events w w' = evs.
Proof. intros H. unfold new_events. rewrite H. apply drop_app_length. Qed.

Lemma external_run c w :
  exists w' rep,
    quiet w w' [ev c rep]
    /\ external c w
       = (match rep with
          | Fault => Raise (exn_of c)
          | Answer s => Return s
          end, w').
Proof.
  unfold external. destruct (script w) as [|st rest].
  - eexists _, Fault. split; [|reflexivity].
    repeat split; simpl; solve [lia | reflexivity].
  - exists {| redis := redis w; clock := clock w + elapsed st; script := rest;
              trace := trace w ++ [ev c (reply st)] |}, (reply st).
    split.
    + repeat split; simpl; solve [lia | reflexivity].
    + by destruct (reply st).
Qed.

Lemma redis_get_run key w :
  exists w' rep,
    quiet w w' [ev (RedisGet key) rep]
    /\ redis_get key w
       = (match rep with
          | Fault => Raise RedisError
          | Answer _ => Return (lookup_live (redis w) key (clock w'))
          end, w').
Proof.
  destruct (external_run (RedisGet key) w) as (w' & rep & Hq & He).
  exists w', rep. split; [done|].
  unfold redis_get, bind. rewrite He.
  destruct rep; [done|]. destruct Hq as (-> & _). done.
Qed.

Lemma get_context_run self phone w :
  exists w' rep,
    quiet w w' [ev (RedisGet (context_key phone)) rep]
    /\ get_context self phone w
       = (match rep with
          | Fault => Raise RedisError
          | Answer _ => Return (view (redis w) phone (clock w'))
          end, w').
Proof.
  destruct (redis_get_run (context_key phone) w) as (w' & rep & Hq & He).
  exists w', rep. split; [done|].
  unfold get_context, bind. rewrite He.
  destruct rep; [done|]. unfold view.
  by destruct (lookup_live _ _ _).
Qed.

Lemma redis_setex_run key ttl value w :
  exists w' rep,
    redis_setex key ttl value w
    = (match rep with Fault => Raise RedisError | Answer _ => Return tt end, w')
    /\ match rep with
       | Fault => quiet w w' [ev (RedisSetex key ttl value) rep]
       | Answer _ => wrote w w' key ttl value [ev (RedisSetex key ttl value) rep]
       end.
Proof.
  destruct (external_run (RedisSetex key ttl value) w) as (w1 & rep & Hq & He).
  unfold redis_setex, bind. rewrite He.
  destruct rep as [|a].
  - by exists w1, Fault.
  - eexists _, (Answer a). split; [reflexivity|].
    destruct Hq as (Hr & Hc & Ht). by repeat split; simpl; rewrite ?Hr.
Qed.

Lemma update_context_run self phone message response lang w :
  let key := context_key phone in
  (exists w',
      quiet w w' [ev (RedisGet key) Fault]
      /\ update_context self phone message response lang w
         = (Raise RedisError, w'))
  \/ (exists a1 t1 w' rep,
        let value :=
          append_turn (view (redis w) phone t1) t1 message response lang in
        clock w <= t1 <= clock w'
        /\ update_context self phone message response lang w
           = (match rep with
              | Fault => Raise RedisError
              | Answer _ => Return tt
              end, w')
        /\ match rep with
           | Fault =>
               quiet w w'
                 [ev (RedisGet key) (Answer a1);
                  ev (RedisSetex key (context_ttl self) value) rep]
           | Answer _ =>
               wrote w w' key (context_ttl self) value
                 [ev (RedisGet key) (Answer a1);
                  ev (RedisSetex key (context_ttl self) value) rep]
           end).
Proof.
  intros key.
  destruct (get_context_run self phone w) as (w1 & rep1 & Hq1 & He1).
  unfold update_context, bind. rewrite He1.
  destruct rep1 as [|a1].
  - left. by exists w1.
  - right. unfold datetime_now.
    destruct (redis_setex_run key (context_ttl self)
                (append_turn (view (redis w) phone (clock w1)) (clock w1)
                   message response lang) w1) as (w' & rep & He & Hw).
    exists a1, (clock w1), w', rep. cbv zeta. fold key. rewrite He.
    destruct rep as [|a]; (split; [|split; [reflexivity|]]).
    + destruct Hq1 as (_ & ? & _), Hw as (_ & ? & _). lia.
    + apply (quiet_trans _ _ _ [_] [_] Hq1 Hw).
    + destruct Hq1 as (_ & ? & _), Hw as (_ & ? & _). lia.
    + apply (quiet_wrote _ _ _ [_] [_] _ _ _ Hq1 Hw).
Qed.

Lemma detect_language_run text w :
  exists w' rep,
    quiet w w' [ev (detection_call text) rep]
    /\ detect_language text w = (Return (detected rep), w').
Proof.
  destruct (external_run (detection_call text) w) as (w' & rep & Hq & He).
  exists w', rep. split; [done|].
  unfold detect_language, try_except, bind, chat_completion_content.
  change (ChatCompletion _ _ _ _) with (detection_call text).
  rewrite He. by destruct rep as [|[raw|]].
Qed.

Lemma resolve_language_run c message w :
  exists w' rep,
    quiet w w' (detection_events c message rep)
    /\ resolve_language c message w = (Return (resolved c rep), w').
Proof.
  unfold resolve_language, resolved, detection_events.
  destruct (needs_detection c).
  - destruct (detect_language_run message w) as (w' & rep & Hq & He).
    exists w', rep. split; [done|]. unfold bind. by rewrite He.
  - exists w, Fault. split; [apply quiet_refl | done].
Qed.

(** ** Runs of a request *)

Lemma quiet_clock w w' evs : quiet w w' evs -> clock w <= clock w'.
Proof. by intros (_ & ? & _). Qed.

Lemma wrote_clock w w' key ttl value evs :
  wrote w w' key ttl value evs -> clock w <= clock w'.
Proof. by intros (_ & ? & _). Qed.

Lemma quiet_redis_view w w' evs phone t :
  quiet w w' evs -> view (redis w') phone t = view (redis w) phone t.
Proof. by intros (-> & _). Qed.

(** Every request returns a reply, in one of the five ways of [served]. *)
Lemma generate_response_served message phone business_id w :
  exists r w',
    generate_response message phone business_id w = (Return r, w')
    /\ served message phone business_id w w' r.
Proof.
  unfold generate_response, try_except, generate_response_body, bind.
  destruct (get_context_run conv_manager phone w) as (w1 & rep1 & Hq1 & He1).
  rewrite He1. destruct rep1 as [|a1].
  { exists (Some apology), w1. split; [done|]. by apply served_read_failed. }
  set (c := view (redis w) phone (clock w1)).
  destruct (resolve_language_run c message w1) as (w2 & rep & Hq2 & He2).
  rewrite He2. unfold chat_completion_content.
  pose proof (quiet_clock _ _ _ Hq1) as Hc1.
  pose proof (quiet_clock _ _ _ Hq2) as Hc2.
  pose proof (quiet_trans _ _ _ _ _ Hq1 Hq2) as Hq12.
  destruct (external_run
              (model_call (prompt_for business_id (resolved c rep) message)) w2)
    as (w3 & rep3 & Hq3 & He3).
  unfold model_call, prompt_for in He3. rewrite He3.
  pose proof (quiet_clock _ _ _ Hq3) as Hc3.
  pose proof (quiet_trans _ _ _ _ _ Hq12 Hq3) as Hq123.
  rewrite <- app_assoc in Hq123.
  destruct rep3 as [|s].
  { exists (Some apology), w3. split; [done|].
    apply (served_model_failed _ _ _ _ _ _ a1 (clock w1) rep); [done|lia|done]. }
  destruct (update_context_run conv_manager phone message s
              (language (resolved c rep)) w3)
    as [(w4 & Hq4 & He4)|(a2 & t2 & w4 & rep4 & Ht2 & He4 & Hq4)];
    rewrite He4.
  { exists (Some apology), w4. split; [done|].
    pose proof (quiet_clock _ _ _ Hq4) as Hc4.
    pose proof (quiet_trans _ _ _ _ _ Hq123 Hq4) as Hq.
    rewrite <- !app_assoc in Hq.
    apply (served_reread_failed _ _ _ _ _ _ a1 (clock w1) rep s);
      [done|lia|done]. }
  rewrite (quiet_redis_view _ _ _ _ _ Hq123) in Hq4.
  destruct rep4 as [|a3].
  - exists (Some apology), w4. split; [done|].
    pose proof (quiet_clock _ _ _ Hq4) as Hc4.
    pose proof (quiet_trans _ _ _ _ _ Hq123 Hq4) as Hq.
    rewrite <- !app_assoc in Hq.
    apply (served_write_failed _ _ _ _ _ _ a1 (clock w1) rep s a2 t2);
      [done|lia|lia|done].
  - exists s, w4. split; [done|].
    pose proof (wrote_clock _ _ _ _ _ _ Hq4) as Hc4.
    pose proof (quiet_wrote _ _ _ _ _ _ _ _ Hq123 Hq4) as Hq.
    rewrite <- !app_assoc in Hq.
    apply (served_completed _ _ _ _ _ _ a1 (clock w1) rep a2 t2 a3);
      [lia|lia|done].
Qed.

(** ** The language table *)

Lemma in_LANGUAGE_MAP_supported code :
  in_LANGUAGE_MAP code = true <-> code ∈ supported_codes.
Proof.
  unfold in_LANGUAGE_MAP. rewrite bool_decide_eq_true, <- elem_of_dom.
  unfold LANGUAGE_MAP. rewrite dom_list_to_map_L. simpl.
  unfold supported_codes. set_solver.
Qed.

Lemma detected_supported rep : detected rep ∈ supported_codes.
Proof.
  unfold detected. destruct rep as [|[raw|]].
  - unfold supported_codes. set_solver.
  - destruct (in_LANGUAGE_MAP (normalized raw)) eqn:E.
    + by apply in_LANGUAGE_MAP_supported.
    + unfold supported_codes. set_solver.
  - unfold supported_codes. set_solver.
Qed.

Lemma supported_truthy code :
  code ∈ supported_codes -> PyStr.truthy (Some code) = true.
Proof.
  unfold supported_codes. rewrite !elem_of_cons, elem_of_nil.
  intros H. repeat destruct H as [->|H]; done.
Qed.

Lemma needs_detection_false c :
  needs_detection c = false
  <-> PyStr.truthy (language c) = true /\ messages c <> [].
Proof.
  unfold needs_detection. rewrite orb_false_iff, negb_false_iff.
  destruct (messages c); simpl; intuition congruence.
Qed.

Lemma lookup_live_None store key now :
  lookup_live store key now = None
  <-> store !! key = None
      \/ exists v expires, store !! key = Some (v, expires) /\ expires <= now.
Proof.
  unfold lookup_live. destruct (store !! key) as [[v e]|].
  - destruct (Nat.ltb_spec now e); split.
    + done.
    + intros [?|(? & ? & [= <- <-] & ?)]; [done|lia].
    + intros _. right. eauto.
    + done.
  - split; [by left|done].
Qed.

(** ** The session store *)

(** C3, as stated, fails: the session [get_context] makes up for an
    unknown phone number has its language set, to [en]. *)
Lemma fresh_session_language_is_set :
  let w := fresh_world [answers 0 ""] in
  redis w !! context_key "+15550100" = None
  /\ (get_context conv_manager "+15550100" w).1 = Return default_context
  /\ language default_context = Some "en"
  /\ language default_context <> None
  /\ PyStr.truthy (language default_context) = true.
Proof. vm_compute. repeat split; discriminate. Qed.

(** C3, amended. When the key is absent, or present but expired by the
    time Redis answers, [get_context] returns the same default session
    in both cases: an empty history, the language [en] and an empty
    business context; it writes nothing to the store. *)
Theorem fresh_session_default (phone : string) (w w' : World) (c : Context) :
  get_context conv_manager phone w = (Return c, w') ->
  (redis w !! context_key phone = None
   \/ exists v expires,
       redis w !! context_key phone = Some (v, expires)
       /\ expires <= clock w') ->
  c = default_context
  /\ messages c = []
  /\ language c = Some "en"
  /\ business_context c = []
  /\ redis w' = redis w.
Proof.
  intros Hrun Hgone.
  destruct (get_context_run conv_manager phone w) as (w1 & rep & Hq & He).
  rewrite He in Hrun. destruct rep as [|a]; [done|].
  injection Hrun as <- <-.
  apply lookup_live_None in Hgone.
  unfold view. rewrite Hgone. destruct Hq as (Hr & _). by repeat split.
Qed.

Lemma fresh_session_default_witness :
  default_context = default_context
  /\ messages default_context = []
  /\ language default_context = Some "en"
  /\ business_context default_context = []
  /\ redis (get_context conv_manager "+15550100"
              (stored_world french_session 4100 [answers 1 ""])).2
     = redis (stored_world french_session 4100 [answers 1 ""]).
Proof.
  apply (fresh_session_default "+15550100"
           (stored_world french_session 4100 [answers 1 ""])).
  - vm_compute. reflexivity.
  - right. exists french_session, 4100. split; [reflexivity|].
    vm_compute. lia.
Defined.

(** C7. A successful [update_context] stores the session under the
    phone's key with an expiry 3600 seconds after the write, so the
    session stays readable for the next 3600 seconds whatever the expiry
    was before; its language is the one supplied when that is a non-empty
    string and the language of the session read otherwise; no other key
    is touched. *)
Theorem put_refreshes_ttl (phone message : string)
    (response lang : option string) (w w' : World) :
  update_context conv_manager phone message response lang w = (Return tt, w') ->
  exists read_at stored,
    clock w <= read_at <= clock w'
    /\ stored = append_turn (view (redis w) phone read_at) read_at
                  message response lang
    /\ redis w' !! context_key phone = Some (stored, clock w' + 3600)
    /\ (forall key, key <> context_key phone -> redis w' !! key = redis w !! key)
    /\ (forall now, now < clock w' + 3600 ->
          lookup_live (redis w') (context_key phone) now = Some stored)
    /\ (PyStr.truthy lang = true -> language stored = lang)
    /\ (PyStr.truthy lang = false ->
          language stored = language (view (redis w) phone read_at)).
Proof.
  intros Hrun.
  destruct (update_context_run conv_manager phone message response lang w)
    as [(w1 & _ & He)|(a1 & t1 & w1 & rep & Ht & He & Hw)];
    rewrite He in Hrun; [done|].
  destruct rep as [|a]; [done|]. injection Hrun as <-.
  destruct Hw as (Hr & _ & _).
  exists t1, (append_turn (view (redis w) phone t1) t1 message response lang).
  split; [done|]. split; [done|].
  change (context_ttl conv_manager) with 3600 in Hr.
  rewrite Hr. split; [apply lookup_insert_eq|].
  split; [by intros key Hk; rewrite lookup_insert_ne|].
  split.
  - intros now Hnow. unfold lookup_live. rewrite lookup_insert_eq.
    by destruct (Nat.ltb_spec now (clock w1 + 3600)); [|lia].
  - unfold append_turn; simpl. split; intros ->; done.
Qed.

Lemma put_refreshes_ttl_witness :
  let w := stored_world french_session 500 [answers 1 ""; answers 2 ""] in
  let w' :=
    (update_context conv_manager "+15550100" "bonjour" (Some "salut") None w).2 in
  exists read_at stored,
    500 <= read_at <= 503
    /\ stored = append_turn (view (redis w) "+15550100" read_at) read_at
                  "bonjour" (Some "salut") None
    /\ redis w' !! context_key "+15550100" = Some (stored, 503 + 3600)
    /\ language stored = language (view (redis w) "+15550100" read_at).
Proof.
  intros w w'.
  destruct (put_refreshes_ttl "+15550100" "bonjour" (Some "salut") None w w')
    as (t & stored & Ht & Hs & Hkey & _ & _ & _ & Hlang).
  - vm_compute. reflexivity.
  - exists t, stored.
    split; [exact Ht|]. split; [exact Hs|]. split; [exact Hkey|].
    by apply Hlang.
Defined.

(** ** Language resolution *)

(** C4. With a language set and a non-empty history, resolution returns
    the session as it is and leaves the world untouched: no call is made,
    to the detection endpoint or to anything else. In the other case, and
    only then, exactly one call is made, the detection call on the new
    message, and its result becomes the session's language. *)
Theorem sticky_language (c : Context) (message : string) (w : World) :
  (PyStr.truthy (language c) = true -> messages c <> [] ->
     resolve_language c message w = (Return c, w)
     /\ new_events w (resolve_language c message w).2 = [])
  /\ (PyStr.truthy (language c) = false \/ messages c = [] ->
        exists rep w',
          resolve_language c message w
          = (Return (with_language c (detected rep)), w')
          /\ new_events w w' = [ev (detection_call message) rep]).
Proof.
  split.
  - intros Hlang Hhist.
    assert (needs_detection c = false) as Hn
      by by apply needs_detection_false.
    unfold resolve_language. rewrite Hn. split; [done|].
    unfold new_events, ret; simpl. apply drop_all.
  - intros Hnew.
    assert (needs_detection c = true) as Hn.
    { destruct (needs_detection c) eqn:E; [done|].
      apply needs_detection_false in E as [? ?].
      destruct Hnew; congruence. }
    destruct (resolve_language_run c message w) as (w' & rep & Hq & He).
    unfold resolved, detection_events in *. rewrite Hn in *.
    exists rep, w'. split; [done|].
    destruct Hq as (_ & _ & Ht). by apply new_events_app.
Qed.

Lemma sticky_language_witness :
  resolve_language french_session "hello"
    (fresh_world [answers 0 "en"])
  = (Return french_session, fresh_world [answers 0 "en"])
  /\ exists rep w',
      resolve_language default_context "hello" (fresh_world [answers 0 "en"])
      = (Return (with_language default_context (detected rep)), w')
      /\ new_events (fresh_world [answers 0 "en"]) w'
         = [ev (detection_call "hello") rep].
Proof.
  split.
  - apply (sticky_language french_session "hello"
             (fresh_world [answers 0 "en"])); [reflexivity|discriminate].
  - apply (sticky_language default_context "hello"
             (fresh_world [answers 0 "en"])). right. reflexivity.
Defined.

(** C5, as stated, fails: a detection result outside the supported set
    is not always turned into [en]; the result is trimmed and lower-cased
    before it is looked up, so the unsupported ["FR"] comes back as
    [fr]. *)
Lemma detect_language_raw_code_accepted :
  let w := fresh_world [answers 0 "FR"] in
  ("FR" ∉ supported_codes)
  /\ in_LANGUAGE_MAP "FR" = false
  /\ new_events w (detect_language "Bonjour" w).2
     = [ev (detection_call "Bonjour") (Answer (Some "FR"))]
  /\ (detect_language "Bonjour" w).1 = Return "fr"
  /\ "fr" <> "en".
Proof.
  split; [|vm_compute; repeat split; discriminate].
  rewrite <- in_LANGUAGE_MAP_supported. vm_compute. discriminate.
Qed.

(** C5, amended. [detect_language] never raises and makes one call. It
    returns [en] when that call fails (a reply without content counts as
    a failure), and when the reply, trimmed and lower-cased, is outside
    the supported set; it returns the trimmed, lower-cased reply
    otherwise. The result is always a supported code. *)
Theorem detect_language_fallback (text : string) (w : World) :
  exists code rep w',
    detect_language text w = (Return code, w')
    /\ new_events w w' = [ev (detection_call text) rep]
    /\ redis w' = redis w
    /\ code ∈ supported_codes
    /\ match rep with
       | Fault | Answer None => code = "en"
       | Answer (Some raw) =>
           (normalized raw ∉ supported_codes -> code = "en")
           /\ (normalized raw ∈ supported_codes -> code = normalized raw)
       end.
Proof.
  destruct (detect_language_run text w) as (w' & rep & Hq & He).
  exists (detected rep), rep, w'. split; [done|].
  destruct Hq as (Hr & _ & Ht).
  split; [by apply new_events_app|]. split; [done|].
  split; [apply detected_supported|].
  destruct rep as [|[raw|]]; [done| |done]. unfold detected.
  destruct (in_LANGUAGE_MAP (normalized raw)) eqn:E.
  - apply in_LANGUAGE_MAP_supported in E. by split.
  - split; [done|]. intros H%in_LANGUAGE_MAP_supported. congruence.
Qed.

Lemma detect_language_fallback_witness :
  exists code rep w',
    detect_language "Hola" (fresh_world [answers 0 "es"]) = (Return code, w')
    /\ new_events (fresh_world [answers 0 "es"]) w'
       = [ev (detection_call "Hola") rep]
    /\ code ∈ supported_codes.
Proof.
  destruct (detect_language_fallback "Hola" (fresh_world [answers 0 "es"]))
    as (code & rep & w' & He & Hn & _ & Hs & _).
  by exists code, rep, w'.
Defined.

(** ** Bounded history *)

Lemma external_answer c w st rest s :
  script w = st :: rest -> reply st = Answer s ->
  external c w
  = (Return s,
     {| redis := redis w; clock := clock w + elapsed st; script := rest;
        trace := trace w ++ [ev c (Answer s)] |}).
Proof. intros Hs Hr. unfold external. by rewrite Hs, Hr. Qed.

Lemma timely_answers st : timely st -> exists s, reply st = Answer s.
Proof. intros [_ H]. destruct (reply st); [done|eauto]. Qed.

(** With a read and a write that both answer, [update_context] succeeds
    and stores the session it read, one turn longer. *)
Lemma update_context_timely phone message response lang w g st rest :
  script w = g :: st :: rest -> timely g -> timely st ->
  let t := clock w + elapsed g in
  exists w',
    update_context conv_manager phone message response lang w = (Return tt, w')
    /\ redis w'
       = <[context_key phone :=
             (append_turn (view (redis w) phone t) t message response lang,
              clock w' + 3600)]> (redis w)
    /\ clock w' = t + elapsed st
    /\ script w' = rest.
Proof.
  intros Hs [a Hg]%timely_answers [b Hst]%timely_answers t.
  unfold update_context, get_context, redis_get, redis_setex, datetime_now, bind.
  rewrite (external_answer _ _ _ _ _ Hs Hg). cbn [redis clock script trace].
  fold (view (redis w) phone t).
  assert (Hret : forall o : option Context,
             match o with Some c => ret c | None => ret default_context end
             = ret (default default_context o)) by by intros [].
  rewrite Hret. unfold ret.
  erewrite external_answer; [|reflexivity|exact Hst].
  eexists. split; [reflexivity|]. by cbn.
Qed.

Lemma view_live store phone c expires now :
  store !! context_key phone = Some (c, expires) -> now < expires ->
  view store phone now = c.
Proof.
  intros Hs Hlt. unfold view, lookup_live. rewrite Hs.
  by destruct (Nat.ltb_spec now expires); [|lia].
Qed.

Lemma length_append_turn c now message response lang :
  length (messages (append_turn c now message response lang)) <= 10.
Proof. unfold append_turn; simpl. rewrite length_last_n. lia. Qed.

(** Puts on a session that was just written: every read finds the
    previous write. *)
Lemma put_all_live phone puts : forall w steps rest c,
  script w = steps ++ rest ->
  length steps = 2 * length puts ->
  Forall timely steps ->
  redis w !! context_key phone = Some (c, clock w + 3600) ->
  length (messages c) <= 10 ->
  exists w' c' turns,
    put_all phone puts w = (Return tt, w')
    /\ redis w' !! context_key phone = Some (c', clock w' + 3600)
    /\ clock w <= clock w'
    /\ exchange <$> turns = put_exchange <$> puts
    /\ messages c' = PyStr.last_n 10 (messages c ++ turns).
Proof.
  induction puts as [|p puts IH]; intros w steps rest c Hs Hlen Htimely Hc Hl.
  - exists w, c, []. repeat split; try done.
    rewrite app_nil_r. symmetry. by apply last_n_short.
  - destruct steps as [|g [|st steps]]; simpl in Hlen; try lia.
    apply Forall_cons in Htimely as [Hg Htimely].
    apply Forall_cons in Htimely as [Hst Htimely].
    destruct (update_context_timely phone (put_message p) (put_response p)
                (put_language p) w g st (steps ++ rest) Hs Hg Hst)
      as (w1 & He1 & Hr1 & Hc1 & Hs1).
    cbv zeta in Hr1.
    rewrite (view_live _ _ _ _ _ Hc) in Hr1 by (destruct Hg; lia).
    set (c1 := append_turn c (clock w + elapsed g) (put_message p)
                 (put_response p) (put_language p)) in *.
    destruct (IH w1 steps rest c1) as (w' & c' & turns & He & Hr & Hc' & Hx & Hm).
    + done.
    + lia.
    + done.
    + rewrite Hr1. apply lookup_insert_eq.
    + apply length_append_turn.
    + exists w', c',
        ({| timestamp := clock w + elapsed g; user := put_message p;
            assistant := put_response p |} :: turns).
      split; [by simpl; unfold bind; rewrite He1|].
      split; [done|]. split; [lia|].
      split; [by rewrite !fmap_cons, Hx|].
      rewrite Hm. unfold c1, append_turn; simpl.
      by rewrite last_n_app, <- app_assoc.
Qed.

(** C1. A sequence of [update_context] calls on one phone number, each
    read and write answering and each in less than the TTL, succeeds;
    the history stored afterwards has at most 10 turns and consists of
    the most recent 10 of the turns read at the first call followed by the
    appended ones, in their original order and unchanged: what is gone
    is a prefix, the oldest turns. *)
Theorem bounded_history (phone : string) (puts : list Put) (w : World)
    (steps rest : list Step) :
  puts <> [] ->
  script w = steps ++ rest ->
  length steps = 2 * length puts ->
  Forall timely steps ->
  exists w' first_read turns evicted,
    put_all phone puts w = (Return tt, w')
    /\ clock w <= first_read <= clock w'
    /\ exchange <$> turns = put_exchange <$> puts
    /\ let before := messages (view (redis w) phone first_read) in
       let after := messages (view (redis w') phone (clock w')) in
       after = most_recent (Nat.min 10 (length (before ++ turns)))
                 (before ++ turns)
       /\ before ++ turns = evicted ++ after
       /\ length evicted = length (before ++ turns) - 10
       /\ length after <= 10.
Proof.
  intros Hne Hs Hlen Htimely.
  destruct puts as [|p puts]; [done|]. clear Hne.
  destruct steps as [|g [|st steps]]; simpl in Hlen; try lia.
  apply Forall_cons in Htimely as [Hg Htimely].
  apply Forall_cons in Htimely as [Hst Htimely].
  destruct (update_context_timely phone (put_message p) (put_response p)
              (put_language p) w g st (steps ++ rest) Hs Hg Hst)
    as (w1 & He1 & Hr1 & Hc1 & Hs1).
  cbv zeta in Hr1.
  set (t := clock w + elapsed g) in *.
  set (before := messages (view (redis w) phone t)).
  set (c1 := append_turn (view (redis w) phone t) t (put_message p)
               (put_response p) (put_language p)) in *.
  destruct (put_all_live phone puts w1 steps rest c1)
    as (w' & c' & turns & He & Hr & Hc' & Hx & Hm).
  { done. } { lia. } { done. }
  { rewrite Hr1. apply lookup_insert_eq. }
  { apply length_append_turn. }
  set (t1 := {| timestamp := t; user := put_message p;
                assistant := put_response p |}).
  assert (Hafter : messages (view (redis w') phone (clock w'))
                   = PyStr.last_n 10 (before ++ t1 :: turns)).
  { rewrite (view_live _ _ _ _ _ Hr) by lia.
    rewrite Hm. unfold c1, append_turn; simpl. fold before t1.
    by rewrite last_n_app, <- app_assoc. }
  destruct (last_n_suffix 10 (before ++ t1 :: turns)) as (evicted & Hev & Hel).
  exists w', t, (t1 :: turns), evicted.
  split; [by simpl; unfold bind; rewrite He1|].
  split; [lia|].
  split; [by rewrite !fmap_cons, Hx|].
  cbv zeta. fold before. rewrite Hafter.
  split; [by rewrite most_recent_last_n|].
  split; [done|]. split; [done|].
  rewrite length_last_n. lia.
Qed.

Lemma bounded_history_witness :
  let w := fresh_world (replicate 22 (answers 1 "")) in
  exists w' first_read turns evicted,
    put_all "+15550100" (sample_puts 11) w = (Return tt, w')
    /\ clock w <= first_read <= clock w'
    /\ exchange <$> turns = put_exchange <$> sample_puts 11
    /\ let before := messages (view (redis w) "+15550100" first_read) in
       let after := messages (view (redis w') "+15550100" (clock w')) in
       after = most_recent (Nat.min 10 (length (before ++ turns)))
                 (before ++ turns)
       /\ before ++ turns = evicted ++ after
       /\ length evicted = length (before ++ turns) - 10
       /\ length after <= 10.
Proof.
  apply (bounded_history "+15550100" (sample_puts 11)
           (fresh_world (replicate 22 (answers 1 "")))
           (replicate 22 (answers 1 "")) []).
  - discriminate.
  - reflexivity.
  - reflexivity.
  - apply Forall_replicate. split; [simpl; lia | discriminate].
Defined.

(** The eleventh put on a fresh session evicts the first turn and keeps
    the other ten in order, the newest last. *)
Example eleventh_put_evicts_oldest :
  let w' :=
    (put_all "+15550100" (sample_puts 11)
       (fresh_world (replicate 22 (answers 1 "")))).2 in
  exchange <$> messages (view (redis w') "+15550100" (clock w'))
  = put_exchange <$> drop 1 (sample_puts 11).
Proof. vm_compute. reflexivity. Qed.

(** ** Requests *)

Lemma detection_events_not_fatal c message rep e :
  e ∈ detection_events c message rep ->
  e = ev (detection_call message) rep /\ fatal e = false.
Proof.
  unfold detection_events. destruct (needs_detection c).
  - rewrite elem_of_cons, elem_of_nil. intros [->|[]]. split; [done|].
    unfold fatal, failed. simpl. by destruct rep.
  - by rewrite elem_of_nil.
Qed.

Lemma served_new_events message phone business_id w w' r evs :
  served message phone business_id w w' r ->
  evs = new_events w w' ->
  (r = Some apology /\ redis w' = redis w
   /\ exists e, e ∈ evs /\ fatal e = true)
  \/ ((forall e, e ∈ evs -> fatal e = false)
      /\ exists msgs, ev (model_call msgs) (Answer r) ∈ evs).
Proof.
  intros Hs ->.
  destruct Hs as [Hr Hq|a1 t1 rep c Hr Ht Hq|a1 t1 rep s c Hr Ht Hq
                 |a1 t1 rep s a2 t2 c v Hr Ht Ht2 Hq|a1 t1 rep a2 t2 a3 c v Ht Ht2 Hq].
  1-4: left; destruct Hq as (Hredis & _ & Htr);
       rewrite (new_events_app _ _ _ Htr);
       split; [done|]; split; [done|].
  - exists (ev (RedisGet (context_key phone)) Fault). split; [set_solver|done].
  - refine (ex_intro _ (ev (model_call _) Fault) (conj _ eq_refl)).
    rewrite elem_of_cons, elem_of_app. right. right.
    apply list_elem_of_here.
  - refine (ex_intro _ (ev (RedisGet _) Fault) (conj _ eq_refl)).
    rewrite elem_of_cons, elem_of_app. right. right.
    apply list_elem_of_further, list_elem_of_here.
  - refine (ex_intro _ (ev (RedisSetex _ _ _) Fault) (conj _ eq_refl)).
    rewrite elem_of_cons, elem_of_app. right. right.
    do 2 apply list_elem_of_further. apply list_elem_of_here.
  - right. destruct Hq as (_ & _ & Htr).
    rewrite (new_events_app _ _ _ Htr). split.
    + intros e. rewrite elem_of_cons, elem_of_app, !elem_of_cons, elem_of_nil.
      intros [->|[He|[->|[->|[->|[]]]]]]; try done.
      by apply detection_events_not_fatal in He as [_ ?].
    + eexists. rewrite elem_of_cons, elem_of_app. right. right.
      apply list_elem_of_here.
Qed.

(** C2. When the model call of a request fails, the request returns the
    fixed apology and the store is exactly what it was: no turn is added
    and no expiry is moved. *)
Theorem degrade_is_atomic (message phone business_id : string)
    (w w' : World) (r : Result (option string)) :
  generate_response message phone business_id w = (r, w') ->
  (exists msgs, ev (model_call msgs) Fault ∈ new_events w w') ->
  r = Return (Some apology) /\ redis w' = redis w.
Proof.
  intros Hrun (msgs & Hin).
  destruct (generate_response_served message phone business_id w)
    as (s & w1 & He & Hs).
  rewrite He in Hrun. injection Hrun as <- <-.
  destruct (served_new_events _ _ _ _ _ _ _ Hs eq_refl)
    as [(-> & Hr & _)|(Hnone & _)]; [done|].
  by specialize (Hnone _ Hin).
Qed.

Lemma degrade_is_atomic_witness :
  (generate_response "salut" "+15550100" "demo" model_down_world).1
  = Return (Some apology)
  /\ redis (generate_response "salut" "+15550100" "demo" model_down_world).2
     = redis model_down_world.
Proof.
  apply (degrade_is_atomic "salut" "+15550100" "demo" model_down_world).
  - vm_compute. reflexivity.
  - exists (prompt_for "demo" french_session "salut").
    vm_compute. right. left.
Defined.

(** C8, as stated, fails: not every failure of an external capability
    turns the reply into the apology. A failed detection call is caught
    inside [detect_language], and the request goes on to return the
    model's reply. *)
Lemma detection_failure_is_not_fatal :
  let run := generate_response "Hola" "+15550100" "demo" detection_down_world in
  ev (detection_call "Hola") Fault ∈ new_events detection_down_world run.2
  /\ run.1 = Return (Some "Hello!")
  /\ "Hello!" <> apology.
Proof.
  split; [vm_compute; right; left|].
  split; [vm_compute; reflexivity|discriminate].
Qed.

(** C8, amended. No exception leaves [generate_response], whatever the
    store and the endpoint do: it always returns. If a storage call or
    the model call fails, what it returns is the fixed apology, and the
    store is unchanged; a failed detection call alone does not have that
    effect. If no storage or model call fails, the model call has
    answered, and when its content is a string, that string is what is
    returned. *)
Theorem generate_response_total (message phone business_id : string)
    (w : World) :
  exists r w',
    generate_response message phone business_id w = (Return r, w')
    /\ ((exists e, e ∈ new_events w w' /\ fatal e = true) ->
          r = Some apology /\ redis w' = redis w)
    /\ ((forall e, e ∈ new_events w w' -> fatal e = false) ->
          exists msgs reply_content,
            ev (model_call msgs) (Answer reply_content) ∈ new_events w w'
            /\ forall s, reply_content = Some s -> r = Some s).
Proof.
  destruct (generate_response_served message phone business_id w)
    as (r & w' & He & Hs).
  exists r, w'. split; [done|].
  destruct (served_new_events _ _ _ _ _ _ _ Hs eq_refl)
    as [(-> & Hr & e & Hin & Hf)|(Hnone & msgs & Hmodel)].
  - split; [done|]. intros Hall. specialize (Hall _ Hin). congruence.
  - split.
    + intros (e & Hin & Hf). specialize (Hnone _ Hin). congruence.
    + intros _. exists msgs, r. split; [done|]. by intros s ->.
Qed.

Lemma generate_response_total_witness :
  exists r w',
    generate_response "salut" "+15550100" "demo" model_down_world
    = (Return r, w')
    /\ r = Some apology /\ redis w' = redis model_down_world.
Proof.
  destruct (generate_response_total "salut" "+15550100" "demo" model_down_world)
    as (r & w' & He & Hfatal & _).
  exists r, w'. split; [exact He|]. apply Hfatal.
  exists (ev (model_call (prompt_for "demo" french_session "salut")) Fault).
  split; [|reflexivity].
  apply (f_equal snd) in He. simpl in He. subst w'.
  vm_compute. right. left.
Defined.

(** A model reply without content: nothing is raised; the request returns
    [None] and the turn it stores has no assistant text. *)
Example reply_without_content :
  let w :=
    fresh_world
      [answers 0 ""; answers 1 "en"; answers_null 2; answers 0 "";
       answers 0 ""] in
  let run := generate_response "Hello" "+15550100" "demo" w in
  run.1 = Return None
  /\ exchange <$> messages (view (redis run.2) "+15550100" (clock run.2))
     = [("Hello", None)].
Proof. vm_compute. split; reflexivity. Qed.

(** A detection reply without content is a failed detection: the
    language falls back to [en]. *)
Example detection_without_content :
  (detect_language "Hello" (fresh_world [answers_null 1])).1 = Return "en".
Proof. vm_compute. reflexivity. Qed.

(** A request on a session that has a language and a history makes no
    detection call, whether it succeeds or degrades. *)
Lemma sticky_request_skips_detection message phone business_id w :
  let w' := (generate_response message phone business_id w).2 in
  (forall t, t <= clock w' -> needs_detection (view (redis w) phone t) = false) ->
  forall text rep, ev (detection_call text) rep ∉ new_events w w'.
Proof.
  intros w' Hsticky text rep. subst w'.
  destruct (generate_response_served message phone business_id w)
    as (s & w' & He & Hs).
  rewrite He in *. simpl in *.
  destruct Hs as [Hr Hq|a1 t1 rep1 c Hr Ht Hq|a1 t1 rep1 r' c Hr Ht Hq
                 |a1 t1 rep1 r' a2 t2 c v Hr Ht Ht2 Hq
                 |a1 t1 rep1 a2 t2 a3 c v Ht Ht2 Hq];
    destruct Hq as (_ & _ & Htr); rewrite (new_events_app _ _ _ Htr);
    try (unfold detection_events, c; rewrite (Hsticky t1) by lia);
    rewrite ?elem_of_cons, ?elem_of_app, ?elem_of_cons, elem_of_nil;
    unfold ev, detection_call, model_call; intuition discriminate.
Qed.

Example sticky_request_skips_detection_example :
  let w := stored_world french_session 600
             [answers 1 ""; answers 2 "Salut!"; answers 0 ""; answers 0 ""] in
  let run := generate_response "salut" "+15550100" "demo" w in
  run.1 = Return (Some "Salut!")
  /\ (forall text rep, ev (detection_call text) rep ∉ new_events w run.2)
  /\ language (view (redis run.2) "+15550100" (clock run.2)) = Some "fr".
Proof.
  intros w run. split; [vm_compute; reflexivity|]. split.
  - apply (sticky_request_skips_detection "salut" "+15550100" "demo" w).
    intros t Ht. vm_compute in Ht.
    unfold view, lookup_live, w, stored_world; simpl.
    rewrite lookup_singleton_eq.
    by destruct (Nat.ltb_spec t 4100); [|lia].
  - vm_compute. reflexivity.
Qed.

(** ** Supported languages in the store *)

Lemma store_supported_empty : store_supported ∅.
Proof. intros key c e H. by rewrite lookup_empty in H. Qed.

Lemma view_supported store phone now :
  store_supported store ->
  exists code, language (view store phone now) = Some code
               /\ code ∈ supported_codes.
Proof.
  intros Hs. unfold view, lookup_live.
  destruct (store !! context_key phone) as [[c e]|] eqn:E.
  - destruct (now <? e); simpl.
    + by apply (Hs _ _ _ E).
    + exists "en". split; [done|]. unfold supported_codes. set_solver.
  - exists "en". split; [done|]. unfold supported_codes. set_solver.
Qed.

Lemma resolved_supported c rep :
  (exists code, language c = Some code /\ code ∈ supported_codes) ->
  exists code, language (resolved c rep) = Some code
               /\ code ∈ supported_codes.
Proof.
  intros Hc. unfold resolved. destruct (needs_detection c); [|done].
  exists (detected rep). split; [done|]. apply detected_supported.
Qed.

Lemma generate_response_preserves_supported message phone business_id w :
  store_supported (redis w) ->
  store_supported (redis (generate_response message phone business_id w).2).
Proof.
  intros Hw.
  destruct (generate_response_served message phone business_id w)
    as (s & w' & He & Hs).
  rewrite He. simpl.
  destruct Hs as [Hr Hq|a1 t1 rep c Hr Ht Hq|a1 t1 rep r' c Hr Ht Hq
                 |a1 t1 rep r' a2 t2 c v Hr Ht Ht2 Hq
                 |a1 t1 rep a2 t2 a3 c v Ht Ht2 Hq].
  1-4: by destruct Hq as (-> & _).
  destruct Hq as (-> & _).
  destruct (resolved_supported c rep (view_supported _ phone t1 Hw))
    as (code & Hcode & Hin).
  intros key c' e. rewrite lookup_insert. case_decide as Hk.
  - intros [= <- <-]. exists code. split; [|done].
    unfold v, append_turn; simpl. fold c. rewrite Hcode.
    by rewrite (supported_truthy _ Hin).
  - apply Hw.
Qed.

(** C9. Whatever requests are served, and whatever the store and the
    endpoint do meanwhile, every session in the store carries one of the
    nine supported language codes, provided the sessions that were there
    at the start did (as they do when the store starts empty). *)
Theorem persisted_language_supported (reqs : list Request) (w : World) :
  store_supported (redis w) ->
  store_supported (redis (serve_all reqs w)).
Proof.
  revert w. induction reqs as [|q reqs IH]; intros w Hw; simpl; [done|].
  apply IH. by apply generate_response_preserves_supported.
Qed.

Lemma persisted_language_supported_witness :
  store_supported (redis (serve_all sample_requests two_requests_world)).
Proof.
  apply (persisted_language_supported sample_requests two_requests_world).
  intros key c expires H. simpl in H. by rewrite lookup_empty in H.
Defined.

(** The two requests of [sample_requests]: the first detects French from
    the reply [" FR "], the second reuses it. *)
Example two_requests_store :
  let w' := serve_all sample_requests two_requests_world in
  (fun c => (exchange <$> messages c, language c))
    (view (redis w') "+15550100" (clock w'))
  = ([("Bonjour", Some "Salut!"); ("Merci", Some "De rien.")], Some "fr")
  /\ length (trace w') = 9.
Proof. vm_compute. split; reflexivity. Qed.

(** The scenario of the specification: an empty store, ["Hola"], a
    detection that answers the unsupported ["es"]. *)
Example hola_scenario :
  let w :=
    fresh_world
      [answers 0 ""; answers 1 "es"; answers 2 "Hello!"; answers 0 "";
       answers 0 ""] in
  let run := generate_response "Hola" "+15550100" "demo" w in
  run.1 = Return (Some "Hello!")
  /\ (fun c => (exchange <$> messages c, language c))
       (view (redis run.2) "+15550100" (clock run.2))
     = ([("Hola", Some "Hello!")], Some "en")
  /\ ev (model_call
           [{| role := "system";
               content := Some (get_system_prompt (BusinessContext_init "demo")
                                  (Some "en")) |};
            {| role := "user"; content := Some "Hola" |}])
        (Answer (Some "Hello!")) ∈ trace run.2.
Proof.
  split; [vm_compute; reflexivity|].
  split; [vm_compute; reflexivity|].
  vm_compute. do 2 right. left.
Qed.

(** ** More on the session store *)

Lemma last_last_n {A} (n : nat) (l : list A) (x : A) :
  0 < n -> last (PyStr.last_n n (l ++ [x])) = Some x.
Proof.
  intros Hn.
  destruct (last_n_suffix n (l ++ [x])) as (evicted & Heq & Hlen).
  pose proof (length_last_n n (l ++ [x])) as Hl.
  rewrite length_app in Hl, Hlen. simpl in Hl, Hlen.
  pose proof (last_snoc x l) as Hlast. rewrite Heq, last_app in Hlast.
  destruct (last (PyStr.last_n n (l ++ [x]))) as [y|] eqn:E; [done|].
  apply last_None in E. rewrite E in Hl. simpl in Hl. lia.
Qed.

Lemma view_expired store phone c expires now :
  store !! context_key phone = Some (c, expires) -> expires <= now ->
  view store phone now = default_context.
Proof.
  intros Hs Hle. unfold view, lookup_live. rewrite Hs.
  by destruct (Nat.ltb_spec now expires); [lia|].
Qed.

Lemma context_key_inj p q : context_key p = context_key q -> p = q.
Proof. unfold context_key. simpl. by intros [=]. Qed.

(** X1. Write, then read: the session a successful [update_context]
    stored is what [get_context] returns, turn for turn and with the new
    turn last, as long as Redis answers less than 3600 seconds after the
    write; when it answers more than 3600 seconds after the write, the
    read gives the default session. *)
Theorem put_then_get (phone message : string) (response lang : option string)
    (w w1 w2 : World) (c : Context) :
  update_context conv_manager phone message response lang w = (Return tt, w1) ->
  get_context conv_manager phone w1 = (Return c, w2) ->
  (clock w2 < clock w1 + 3600 ->
     exists read_at,
       clock w <= read_at <= clock w1
       /\ c = append_turn (view (redis w) phone read_at) read_at
                message response lang
       /\ last (messages c)
          = Some {| timestamp := read_at; user := message;
                    assistant := response |})
  /\ (clock w1 + 3600 < clock w2 -> c = default_context).
Proof.
  intros Hput Hget.
  destruct (update_context_run conv_manager phone message response lang w)
    as [(w' & _ & He)|(a1 & t1 & w' & rep & Ht & He & Hw)];
    rewrite He in Hput; [done|].
  destruct rep as [|a]; [done|]. injection Hput as <-.
  destruct Hw as (Hr & _ & _).
  change (context_ttl conv_manager) with 3600 in Hr.
  destruct (get_context_run conv_manager phone w') as (w3 & rep & Hq & Hg).
  rewrite Hg in Hget. destruct rep as [|b]; [done|].
  injection Hget as <- <-.
  assert (Hkey : redis w' !! context_key phone
                 = Some (append_turn (view (redis w) phone t1) t1
                           message response lang, clock w' + 3600))
    by (rewrite Hr; apply lookup_insert_eq).
  split; intros Hlt.
  - rewrite (view_live _ _ _ _ _ Hkey) by lia.
    exists t1. split; [done|]. split; [done|].
    unfold append_turn; simpl. apply last_last_n. lia.
  - apply (view_expired _ _ _ _ _ Hkey). lia.
Qed.

Lemma put_then_get_witness :
  let w := stored_world french_session 500
             [answers 1 ""; answers 2 ""; answers 10 ""] in
  let w1 :=
    (update_context conv_manager "+15550100" "bonjour" (Some "salut") None w).2 in
  exists read_at,
    500 <= read_at <= 503
    /\ (exchange <$> last (messages (view (redis w1) "+15550100" 513)))
       = Some ("bonjour", Some "salut")
    /\ view (redis w1) "+15550100" 513
       = append_turn (view (redis w) "+15550100" read_at) read_at
           "bonjour" (Some "salut") None.
Proof.
  intros w w1.
  destruct (put_then_get "+15550100" "bonjour" (Some "salut") None w w1
              (get_context conv_manager "+15550100" w1).2
              (view (redis w1) "+15550100" 513)) as [Hlive _].
  - vm_compute. reflexivity.
  - vm_compute. reflexivity.
  - destruct Hlive as (t & Ht & Hc & Hl); [vm_compute; lia|].
    exists t. split; [exact Ht|]. split; [|exact Hc].
    rewrite Hl. reflexivity.
Defined.

(** X2. [update_context] fails only by a failing Redis call, and then the
    store is unchanged: a failed read is its only call (no write is
    attempted), a failed write follows an answered read. When it succeeds
    it has made exactly one read and one write. *)
Theorem update_context_calls (phone message : string)
    (response lang : option string) (w w' : World) (r : Result unit) :
  update_context conv_manager phone message response lang w = (r, w') ->
  let key := context_key phone in
  (r = Raise RedisError /\ redis w' = redis w
   /\ new_events w w' = [ev (RedisGet key) Fault])
  \/ (exists a value,
        r = Raise RedisError /\ redis w' = redis w
        /\ new_events w w'
           = [ev (RedisGet key) (Answer a); ev (RedisSetex key 3600 value) Fault])
  \/ (exists a b value,
        r = Return tt
        /\ redis w' !! key = Some (value, clock w' + 3600)
        /\ new_events w w'
           = [ev (RedisGet key) (Answer a);
              ev (RedisSetex key 3600 value) (Answer b)]).
Proof.
  intros Hrun key.
  destruct (update_context_run conv_manager phone message response lang w)
    as [(w1 & Hq & He)|(a1 & t1 & w1 & rep & Ht & He & Hw)];
    rewrite He in Hrun; injection Hrun as <- <-.
  - left. destruct Hq as (Hr & _ & Htr).
    split; [done|]. split; [done|]. by apply new_events_app.
  - right. destruct rep as [|b].
    + left. destruct Hw as (Hr & _ & Htr).
      eexists a1, _. split; [done|]. split; [done|]. by apply new_events_app.
    + right. destruct Hw as (Hr & _ & Htr).
      eexists a1, b, _. split; [done|].
      split; [rewrite Hr; apply lookup_insert_eq|]. by apply new_events_app.
Qed.

(** X3. A put on a phone number whose session is absent or already
    expired starts a new history: the stored session has the new turn as
    its only turn, the supplied language when that is a non-empty string
    and [en] otherwise, and an empty business context. *)
Theorem put_after_expiry_restarts (phone message : string)
    (response lang : option string) (w w' : World) :
  update_context conv_manager phone message response lang w = (Return tt, w') ->
  (redis w !! context_key phone = None
   \/ exists v expires,
       redis w !! context_key phone = Some (v, expires)
       /\ expires <= clock w) ->
  exists now,
    clock w <= now <= clock w'
    /\ redis w' !! context_key phone
       = Some ({| messages := [{| timestamp := now; user := message;
                                  assistant := response |}];
                  language := if PyStr.truthy lang then lang else Some "en";
                  business_context := [] |},
               clock w' + 3600).
Proof.
  intros Hput Hgone.
  destruct (update_context_run conv_manager phone message response lang w)
    as [(w1 & _ & He)|(a1 & t1 & w1 & rep & Ht & He & Hw)];
    rewrite He in Hput; [done|].
  destruct rep as [|a]; [done|]. injection Hput as <-.
  destruct Hw as (Hr & _ & _).
  change (context_ttl conv_manager) with 3600 in Hr.
  exists t1. split; [done|]. rewrite Hr, lookup_insert_eq.
  assert (view (redis w) phone t1 = default_context) as ->; [|done].
  unfold view.
  assert (lookup_live (redis w) (context_key phone) t1 = None) as ->; [|done].
  apply lookup_live_None.
  destruct Hgone as [?|(v & e & ? & ?)]; [by left|].
  right. exists v, e. split; [done|lia].
Qed.

Lemma put_after_expiry_restarts_witness :
  let w := stored_world french_session 4200 [answers 1 ""; answers 2 ""] in
  let w' :=
    (update_context conv_manager "+15550100" "hello" (Some "hi") (Some "")  w).2 in
  exists now,
    4200 <= now <= 4203
    /\ redis w' !! context_key "+15550100"
       = Some ({| messages := [{| timestamp := now; user := "hello";
                                  assistant := Some "hi" |}];
                  language := Some "en"; business_context := [] |},
               4203 + 3600).
Proof.
  intros w w'.
  apply (put_after_expiry_restarts "+15550100" "hello" (Some "hi") (Some "") w w').
  - vm_compute. reflexivity.
  - right. exists french_session, 4100. split; [reflexivity|].
    vm_compute. lia.
Defined.

Lemma update_context_calls_witness :
  let w := stored_world french_session 500 [answers 1 ""; fails 2] in
  let run := update_context conv_manager "+15550100" "bonjour" (Some "salut") None w in
  run.1 = Raise RedisError /\ redis run.2 = redis w.
Proof.
  intros w run.
  destruct (update_context_calls "+15550100" "bonjour" (Some "salut") None w run.2 run.1)
    as [(Hr & Hs & _)|[(a & v & Hr & Hs & _)|(a & b & v & Hr & _)]].
  - vm_compute. reflexivity.
  - by split.
  - by split.
  - vm_compute in Hr. discriminate Hr.
Defined.

(** ** More on requests *)

Lemma resolved_truthy c rep : PyStr.truthy (language (resolved c rep)) = true.
Proof.
  unfold resolved. destruct (needs_detection c) eqn:E.
  - apply supported_truthy, detected_supported.
  - by apply needs_detection_false in E as [? _].
Qed.

(** A request none of whose storage and model calls failed went all the
    way. *)
Lemma served_success message phone business_id w w' r :
  served message phone business_id w w' r ->
  (forall e, e ∈ new_events w w' -> fatal e = false) ->
  exists a1 t1 rep a2 t2 a3,
    let c := view (redis w) phone t1 in
    let value :=
      append_turn (view (redis w) phone t2) t2 message r
        (language (resolved c rep)) in
    clock w <= t1 <= t2 /\ t2 <= clock w'
    /\ wrote w w' (context_key phone) 3600 value
         (ev (RedisGet (context_key phone)) (Answer a1)
          :: detection_events c message rep
          ++ [ev (model_call (prompt_for business_id (resolved c rep) message))
                (Answer r);
              ev (RedisGet (context_key phone)) (Answer a2);
              ev (RedisSetex (context_key phone) 3600 value) (Answer a3)]).
Proof.
  intros Hs Hnone.
  destruct (served_new_events _ _ _ _ _ _ _ Hs eq_refl)
    as [(_ & _ & e & Hin & Hf)|_].
  { specialize (Hnone _ Hin). congruence. }
  destruct Hs as [Hr Hq|a1 t1 rep c Hr Ht Hq|a1 t1 rep s c Hr Ht Hq
                 |a1 t1 rep s a2 t2 c v Hr Ht Ht2 Hq
                 |a1 t1 rep a2 t2 a3 c v Ht Ht2 Hq].
  1-4: exfalso; destruct Hq as (_ & _ & Htr);
       rewrite (new_events_app _ _ _ Htr) in Hnone.
  - by specialize (Hnone (ev (RedisGet (context_key phone)) Fault)
                     ltac:(set_solver)).
  - specialize (Hnone (ev (model_call (prompt_for business_id (resolved c rep)
                                         message)) Fault)).
    assert (fatal (ev (model_call (prompt_for business_id (resolved c rep)
                                     message)) Fault) = false); [|done].
    apply Hnone. rewrite elem_of_cons, elem_of_app. right. right.
    apply list_elem_of_here.
  - specialize (Hnone (ev (RedisGet (context_key phone)) Fault)).
    assert (fatal (ev (RedisGet (context_key phone)) Fault) = false); [|done].
    apply Hnone. rewrite elem_of_cons, elem_of_app. right. right.
    apply list_elem_of_further, list_elem_of_here.
  - specialize (Hnone (ev (RedisSetex (context_key phone) 3600 v) Fault)).
    assert (fatal (ev (RedisSetex (context_key phone) 3600 v) Fault) = false);
      [|done].
    apply Hnone. rewrite elem_of_cons, elem_of_app. right. right.
    do 2 apply list_elem_of_further. apply list_elem_of_here.
  - by exists a1, t1, rep, a2, t2, a3.
Qed.

(** X4. A request for one phone number leaves every other key of the
    store as it was, value and expiry: what any other phone number would
    read is unchanged. *)
Theorem request_isolated (message phone business_id other : string)
    (w : World) :
  other <> phone ->
  let w' := (generate_response message phone business_id w).2 in
  redis w' !! context_key other = redis w !! context_key other
  /\ forall now, view (redis w') other now = view (redis w) other now.
Proof.
  intros Hne w'. subst w'.
  destruct (generate_response_served message phone business_id w)
    as (s & w' & He & Hs).
  rewrite He. simpl.
  assert (redis w' !! context_key other = redis w !! context_key other) as Hk.
  { destruct Hs as [Hr Hq|a1 t1 rep c Hr Ht Hq|a1 t1 rep r' c Hr Ht Hq
                   |a1 t1 rep r' a2 t2 c v Hr Ht Ht2 Hq
                   |a1 t1 rep a2 t2 a3 c v Ht Ht2 Hq];
      destruct Hq as (-> & _); [done..|].
    apply lookup_insert_ne. intros H%context_key_inj. congruence. }
  split; [done|]. intros now. unfold view, lookup_live. by rewrite Hk.
Qed.

Lemma request_isolated_witness :
  let w := stored_world french_session 600
             [answers 1 ""; answers 1 "sw"; answers 2 "Jambo!"; answers 0 "";
              answers 0 ""] in
  let w' := (generate_response "Habari" "+15550199" "demo" w).2 in
  redis w' !! context_key "+15550100" = redis w !! context_key "+15550100"
  /\ forall now, view (redis w') "+15550100" now = view (redis w) "+15550100" now.
Proof.
  intros w.
  apply (request_isolated "Habari" "+15550199" "demo" "+15550100" w).
  discriminate.
Defined.

(** X5. A request none of whose storage and model calls failed stores
    the session it read after the model replied, with one more turn: the
    message and the reply it returns, stamped with the instant of that
    read, as the last turn; at most 10 turns are kept; the language is a
    non-empty string; and the key expires 3600 seconds after the write. *)
Theorem successful_request_persists (message phone business_id : string)
    (s : option string) (w w' : World) :
  generate_response message phone business_id w = (Return s, w') ->
  (forall e, e ∈ new_events w w' -> fatal e = false) ->
  exists read_at stored,
    clock w <= read_at <= clock w'
    /\ redis w' !! context_key phone = Some (stored, clock w' + 3600)
    /\ messages stored
       = PyStr.last_n 10
           (messages (view (redis w) phone read_at)
            ++ [{| timestamp := read_at; user := message; assistant := s |}])
    /\ last (messages stored)
       = Some {| timestamp := read_at; user := message; assistant := s |}
    /\ length (messages stored) <= 10
    /\ PyStr.truthy (language stored) = true
    /\ business_context stored
       = business_context (view (redis w) phone read_at).
Proof.
  intros Hrun Hnone.
  destruct (generate_response_served message phone business_id w)
    as (s' & w1 & He & Hs).
  rewrite He in Hrun. injection Hrun as -> ->.
  destruct (served_success _ _ _ _ _ _ Hs Hnone)
    as (a1 & t1 & rep & a2 & t2 & a3 & Ht & Ht2 & Hr & _).
  exists t2. eexists. split; [lia|].
  split; [rewrite Hr; apply lookup_insert_eq|].
  unfold append_turn; simpl.
  split; [done|]. split; [apply last_last_n; lia|].
  split; [rewrite length_last_n; lia|].
  split; [|done]. rewrite resolved_truthy. apply resolved_truthy.
Qed.

Lemma no_fatal_forallb (evs : list Event) :
  forallb (fun e => negb (fatal e)) evs = true ->
  forall e, e ∈ evs -> fatal e = false.
Proof.
  intros H e Hin. rewrite forallb_forall in H.
  apply list_elem_of_In, H in Hin. by destruct (fatal e).
Qed.

Lemma successful_request_persists_witness :
  let run := generate_response "Bonjour" "+15550100" "demo" two_requests_world in
  exists read_at stored,
    1000 <= read_at <= 1003
    /\ redis run.2 !! context_key "+15550100" = Some (stored, 1003 + 3600)
    /\ last (messages stored)
       = Some {| timestamp := read_at; user := "Bonjour";
                 assistant := Some "Salut!" |}.
Proof.
  intros run.
  destruct (successful_request_persists "Bonjour" "+15550100" "demo"
              (Some "Salut!")
              two_requests_world run.2)
    as (t & stored & Ht & Hk & _ & Hl & _).
  - vm_compute. reflexivity.
  - apply no_fatal_forallb. vm_compute. reflexivity.
  - exists t, stored. split; [exact Ht|]. split; [exact Hk|exact Hl].
Defined.

Lemma build_messages_eq system_prompt history message :
  build_messages system_prompt history message
  = {| role := "system"; content := Some system_prompt |}
      :: flat_map turn_pair (PyStr.last_n 5 history)
      ++ [{| role := "user"; content := Some message |}].
Proof. unfold build_messages. by rewrite fold_left_pairs. Qed.

Lemma roles_flat_map_turn_pair (l : list Turn) :
  role <$> flat_map turn_pair l
  = concat (replicate (length l) ["user"; "assistant"]).
Proof.
  induction l as [|t l IH]; [done|].
  change (flat_map turn_pair (t :: l))
    with (turn_pair t ++ flat_map turn_pair l).
  by rewrite fmap_app, IH.
Qed.

(** The calls a request can make. *)
Lemma served_event_cases message phone business_id w w' r e :
  served message phone business_id w w' r ->
  e ∈ new_events w w' ->
  (exists rep, e = ev (RedisGet (context_key phone)) rep)
  \/ (exists rep, e = ev (detection_call message) rep)
  \/ (exists c rep r',
        e = ev (model_call (prompt_for business_id (resolved c rep) message)) r')
  \/ (exists value rep, e = ev (RedisSetex (context_key phone) 3600 value) rep).
Proof.
  intros Hs.
  destruct Hs as [Hr Hq|a1 t1 rep c Hr Ht Hq|a1 t1 rep r' c Hr Ht Hq
                 |a1 t1 rep r' a2 t2 c v Hr Ht Ht2 Hq
                 |a1 t1 rep a2 t2 a3 c v Ht Ht2 Hq];
    destruct Hq as (_ & _ & Htr); rewrite (new_events_app _ _ _ Htr).
  { rewrite elem_of_cons, elem_of_nil. intros [->|[]]. left. eauto. }
  all: rewrite elem_of_cons, elem_of_app, !elem_of_cons, elem_of_nil;
    intros [->|[Hd%detection_events_not_fatal|Hrest]];
    [ left; eauto
    | destruct Hd as [-> _]; right; left; eauto
    | repeat (destruct Hrest as [->|Hrest]); try done;
      eauto 10 ].
Qed.

(** X6. What a request sends to the model: any model call it makes
    carries the system prompt rendered for a non-empty language first
    and the inbound message last, as a user message; in between come [k]
    user/assistant pairs, [k <= 5], so the roles alternate and the list
    has [2k + 2 <= 12] entries. *)
Theorem model_call_shape (message phone business_id : string) (w : World)
    (e : Event) :
  e ∈ new_events w (generate_response message phone business_id w).2 ->
  is_model_call (call e) = true ->
  exists msgs lang k,
    call e = model_call msgs
    /\ PyStr.truthy lang = true
    /\ head msgs
       = Some {| role := "system";
                 content := Some (get_system_prompt
                                    (BusinessContext_init business_id) lang) |}
    /\ last msgs = Some {| role := "user"; content := Some message |}
    /\ k <= 5
    /\ role <$> msgs
       = "system" :: concat (replicate k ["user"; "assistant"]) ++ ["user"]
    /\ length msgs = 2 * k + 2.
Proof.
  intros Hin Hmodel.
  destruct (generate_response_served message phone business_id w)
    as (s & w' & He & Hs).
  rewrite He in Hin. simpl in Hin.
  destruct (served_event_cases _ _ _ _ _ _ _ Hs Hin)
    as [(rep & ->)|[(rep & ->)|[(c & rep & r & ->)|(v & rep & ->)]]];
    try discriminate Hmodel.
  set (c' := resolved c rep).
  exists (prompt_for business_id c' message), (language c'),
    (length (PyStr.last_n 5 (messages c'))).
  split; [done|]. split; [apply resolved_truthy|].
  unfold prompt_for. rewrite build_messages_eq.
  split; [done|].
  split; [by rewrite app_comm_cons, last_snoc|].
  split; [rewrite length_last_n; lia|].
  split.
  - by rewrite fmap_cons, fmap_app, roles_flat_map_turn_pair.
  - simpl. rewrite length_app, length_flat_map_turn_pair. simpl. lia.
Qed.

Lemma model_call_shape_witness :
  let w := stored_world french_session 600
             [answers 1 ""; answers 2 "Salut!"; answers 0 ""; answers 0 ""] in
  exists msgs lang k,
    model_call (prompt_for "demo" french_session "salut") = model_call msgs
    /\ PyStr.truthy lang = true
    /\ last msgs = Some {| role := "user"; content := Some "salut" |}
    /\ k <= 5
    /\ length msgs = 2 * k + 2.
Proof.
  intros w.
  destruct (model_call_shape "salut" "+15550100" "demo" w
              (ev (model_call (prompt_for "demo" french_session "salut"))
                 (Answer (Some "Salut!"))))
    as (msgs & lang & k & Hc & Ht & _ & Hl & Hk & _ & Hlen).
  - vm_compute. right. left.
  - reflexivity.
  - by exists msgs, lang, k.
Defined.

(** X7. The cost of a request: it makes between one and five external
    calls, the first of them the read of the session; at most one is a
    model call and at most one is a write; a write can only be the last
    call of the request, and so can a failed storage or model call: the
    request stops at the first of those. *)
Theorem request_call_budget (message phone business_id : string) (w : World) :
  let evs := new_events w (generate_response message phone business_id w).2 in
  1 <= length evs <= 5
  /\ (exists rep, head evs = Some (ev (RedisGet (context_key phone)) rep))
  /\ length (filter (fun e => is_model_call (call e) = true) evs) <= 1
  /\ length (filter (fun e => is_write_call (call e) = true) evs) <= 1
  /\ (forall e, e ∈ evs -> is_write_call (call e) = true -> last evs = Some e)
  /\ (forall e, e ∈ evs -> fatal e = true -> last evs = Some e).
Proof.
  intros evs. subst evs.
  destruct (generate_response_served message phone business_id w)
    as (s & w' & He & Hs).
  rewrite He. simpl.
  destruct Hs as [Hr Hq|a1 t1 rep c Hr Ht Hq|a1 t1 rep r' c Hr Ht Hq
                 |a1 t1 rep r' a2 t2 c v Hr Ht Ht2 Hq
                 |a1 t1 rep a2 t2 a3 c v Ht Ht2 Hq];
    destruct Hq as (_ & _ & Htr); rewrite (new_events_app _ _ _ Htr);
    clear Htr; try clearbody v; try clearbody c;
    repeat match goal with
           | |- context [prompt_for ?a ?b ?m] =>
               generalize (prompt_for a b m); intros ?
           end;
    unfold detection_events;
    try match goal with
        | |- context [needs_detection ?x] => destruct (needs_detection x)
        end;
    (split; [simpl; lia|]); (split; [by eexists|]);
    (split; [simpl; lia|]); (split; [simpl; lia|]);
    simpl; split; intros e; rewrite ?elem_of_cons, elem_of_nil;
    intros Hin Hw;
    repeat (destruct Hin as [->|Hin]); try done; try discriminate Hw;
    by destruct rep.
Qed.

(** ** Trimming and lower-casing *)

Lemma lstrip_blank s : blank s = true -> PyStr.lstrip s = "".
Proof.
  induction s as [|c s IH]; simpl; [done|].
  intros [Hc Hs]%andb_true_iff. rewrite Hc. by apply IH.
Qed.

Lemma rstrip_blank s : blank s = true -> PyStr.rstrip s = "".
Proof.
  induction s as [|c s IH]; simpl; [done|].
  intros [Hc Hs]%andb_true_iff. by rewrite (IH Hs), Hc.
Qed.

Lemma lstrip_blank_app pre s :
  blank pre = true -> PyStr.lstrip (pre +:+ s) = PyStr.lstrip s.
Proof.
  induction pre as [|c pre IH]; simpl; [done|].
  intros [Hc Hs]%andb_true_iff. rewrite Hc. by apply IH.
Qed.

Lemma rstrip_app_blank s post :
  blank post = true -> PyStr.rstrip (s +:+ post) = PyStr.rstrip s.
Proof.
  intros Hp. induction s as [|c s IH]; simpl.
  - by apply rstrip_blank.
  - by rewrite IH.
Qed.

Lemma strip_padding pre s post :
  blank pre = true -> blank post = true ->
  PyStr.strip (pre +:+ s +:+ post) = PyStr.strip s.
Proof.
  intros Hpre Hpost. unfold PyStr.strip. rewrite (lstrip_blank_app _ _ Hpre).
  induction s as [|c s IH]; simpl.
  - change ("" +:+ post) with post. by rewrite (lstrip_blank _ Hpost).
  - destruct (PyStr.is_space c); [done|].
    change (String c (s +:+ post)) with (String c s +:+ post).
    by apply rstrip_app_blank.
Qed.

Lemma is_space_lower_char c : PyStr.is_space (PyStr.lower_char c) = PyStr.is_space c.
Proof. by destruct c as [[] [] [] [] [] [] [] []]. Qed.

Lemma lstrip_lower s : PyStr.lstrip (PyStr.lower s) = PyStr.lower (PyStr.lstrip s).
Proof.
  induction s as [|c s IH]; simpl; [done|].
  rewrite is_space_lower_char. by destruct (PyStr.is_space c).
Qed.

Lemma rstrip_lower s : PyStr.rstrip (PyStr.lower s) = PyStr.lower (PyStr.rstrip s).
Proof.
  induction s as [|c s IH]; simpl; [done|].
  rewrite IH, is_space_lower_char.
  destruct (PyStr.rstrip s); simpl; [|done].
  by destruct (PyStr.is_space c).
Qed.

Lemma strip_lower s : PyStr.strip (PyStr.lower s) = PyStr.lower (PyStr.strip s).
Proof. unfold PyStr.strip. by rewrite lstrip_lower, rstrip_lower. Qed.

Lemma supported_fixed code :
  code ∈ supported_codes -> PyStr.strip code = code.
Proof.
  unfold supported_codes. rewrite !elem_of_cons, elem_of_nil.
  intros H. repeat destruct H as [->|H]; done.
Qed.

(** X8. The reply of the detection endpoint is read leniently: a
    supported code written in any letter case and surrounded by any
    whitespace is recognised, and [detect_language] returns the code
    itself. *)
Theorem detection_reply_normalised (text : string) (w : World) (st : Step)
    (rest : list Step) (pre raw post code : string) :
  script w = st :: rest ->
  reply st = Answer (Some (pre +:+ raw +:+ post)) ->
  blank pre = true -> blank post = true ->
  PyStr.lower raw = code ->
  code ∈ supported_codes ->
  (detect_language text w).1 = Return code.
Proof.
  intros Hs Hr Hpre Hpost Hlow Hcode.
  unfold detect_language, try_except, bind, chat_completion_content.
  rewrite (external_answer _ _ _ _ _ Hs Hr). simpl.
  rewrite (strip_padding _ _ _ Hpre Hpost), <- strip_lower, Hlow.
  rewrite (supported_fixed _ Hcode).
  by rewrite (proj2 (in_LANGUAGE_MAP_supported code) Hcode).
Qed.

Lemma detection_reply_normalised_witness :
  (detect_language "Habari"
     (fresh_world [answers 1 (" " +:+ "Sw" +:+ PyStr.newline)])).1
  = Return "sw".
Proof.
  apply (detection_reply_normalised "Habari"
           (fresh_world [answers 1 (" " +:+ "Sw" +:+ PyStr.newline)])
           (answers 1 (" " +:+ "Sw" +:+ PyStr.newline)) []
           " " "Sw" PyStr.newline "sw").
  - reflexivity.
  - reflexivity.
  - reflexivity.
  - reflexivity.
  - reflexivity.
  - unfold supported_codes. set_solver.
Defined.

(** ** The system prompt *)

Lemma language_name_unknown lang :
  (lang = None \/ exists code, lang = Some code /\ code ∉ supported_codes) ->
  language_name lang = "English".
Proof.
  intros [->|(code & -> & Hcode)]; [done|].
  unfold language_name. simpl.
  destruct (LANGUAGE_MAP !! code) eqn:E; [|done].
  exfalso. apply Hcode, in_LANGUAGE_MAP_supported.
  unfold in_LANGUAGE_MAP. apply bool_decide_eq_true. by rewrite E.
Qed.

(** X9. The language of the system prompt: a missing language and any
    code outside the supported set give the English prompt, and two
    different supported codes never give the same prompt. *)
Theorem system_prompt_language (business_id : string) :
  let business := BusinessContext_init business_id in
  (forall lang,
      (lang = None \/ exists code, lang = Some code /\ code ∉ supported_codes) ->
      get_system_prompt business lang = get_system_prompt business (Some "en"))
  /\ (forall c1 c2,
        c1 ∈ supported_codes -> c2 ∈ supported_codes ->
        get_system_prompt business (Some c1)
        = get_system_prompt business (Some c2) ->
        c1 = c2).
Proof.
  intros business. split.
  - intros lang Hlang. unfold get_system_prompt.
    by rewrite (language_name_unknown _ Hlang).
  - unfold supported_codes. intros c1 c2.
    rewrite !elem_of_cons, elem_of_nil. intros H1 H2.
    repeat destruct H1 as [->|H1]; try done;
      repeat destruct H2 as [->|H2]; try done;
      try (by apply elem_of_nil in H2);
      intros H; vm_compute in H; discriminate H.
Qed.

(** ** The webhook *)

(** X10. The webhook never raises and never falls into its own error
    branch, whatever Redis and the endpoint do: its answer is the
    rendering of a response with exactly one message, the reply
    [generate_response] gave for the trimmed [Body] (empty when missing),
    the [From] number (empty when missing) and the business [demo]; the
    world it leaves is the one that request left. *)
Theorem webhook_reply (str_response : MessagingResponse -> string)
    (values : gmap string string) (w : World) :
  exists s w',
    generate_response (PyStr.strip (default "" (values !! "Body")))
      (default "" (values !! "From")) "demo" w
    = (Return s, w')
    /\ webhook str_response values w
       = (Return (str_response {| bodies := [s] |}), w').
Proof.
  destruct (generate_response_served
              (PyStr.strip (default "" (values !! "Body")))
              (default "" (values !! "From")) "demo" w) as (s & w' & He & _).
  exists s, w'. split; [done|].
  unfold webhook, try_except, bind. by rewrite He.
Qed.

(** X11. Whitespace around the inbound text does not matter: a [Body]
    padded with whitespace on either side is served exactly as the
    unpadded one, with the same calls, the same stored turn and the same
    answer. *)
Theorem webhook_ignores_padding (str_response : MessagingResponse -> string)
    (values : gmap string string) (w : World) (pre body post : string) :
  values !! "Body" = Some (pre +:+ body +:+ post) ->
  blank pre = true -> blank post = true ->
  webhook str_response values w
  = webhook str_response (<["Body" := body]> values) w.
Proof.
  intros Hb Hpre Hpost. unfold webhook.
  rewrite Hb, lookup_insert_eq, lookup_insert_ne by done. simpl.
  by rewrite (strip_padding _ _ _ Hpre Hpost).
Qed.

Lemma webhook_ignores_padding_witness :
  let padded : gmap string string :=
    {[ "Body" := " " +:+ "Hola" +:+ PyStr.newline; "From" := "+15550100" ]} in
  webhook sample_str padded detection_down_world
  = webhook sample_str (<["Body" := "Hola"]> padded) detection_down_world.
Proof.
  intros padded.
  apply (webhook_ignores_padding sample_str padded detection_down_world
           " " "Hola" PyStr.newline).
  - vm_compute. reflexivity.
  - reflexivity.
  - reflexivity.
Defined.

(** A webhook call end to end: the padded ["Hola"], a failing detection,
    an answering model. *)
Example webhook_hola :
  let values : gmap string string :=
    {[ "Body" := " Hola "; "From" := "+15550100" ]} in
  let run := webhook sample_str values detection_down_world in
  run.1 = Return "Hello!"
  /\ (fun c => (exchange <$> messages c, language c))
       (view (redis run.2) "+15550100" (clock run.2))
     = ([("Hola", Some "Hello!")], Some "en").
Proof. vm_compute. split; reflexivity. Qed.

(** ** Invariants of the store *)

Lemma store_wellformed_supported store :
  store_wellformed store -> store_supported store.
Proof. intros H key c e Hk. by destruct (H key c e Hk). Qed.

Lemma store_wellformed_empty : store_wellformed ∅.
Proof. intros key c e H. by rewrite lookup_empty in H. Qed.

Lemma generate_response_preserves_wellformed message phone business_id w :
  store_wellformed (redis w) ->
  store_wellformed (redis (generate_response message phone business_id w).2).
Proof.
  intros Hw.
  destruct (generate_response_served message phone business_id w)
    as (s & w' & He & Hs).
  rewrite He. simpl.
  destruct Hs as [Hr Hq|a1 t1 rep c Hr Ht Hq|a1 t1 rep r' c Hr Ht Hq
                 |a1 t1 rep r' a2 t2 c v Hr Ht Ht2 Hq
                 |a1 t1 rep a2 t2 a3 c v Ht Ht2 Hq].
  1-4: by destruct Hq as (-> & _).
  destruct Hq as (-> & _).
  destruct (resolved_supported c rep
              (view_supported _ phone t1 (store_wellformed_supported _ Hw)))
    as (code & Hcode & Hin).
  intros key c' e. rewrite lookup_insert. case_decide as Hk; [|apply Hw].
  intros [= <- <-]. split.
  - unfold v, append_turn; simpl.
    rewrite length_last_n, length_app.
    change (length [{| timestamp := t2; user := message; assistant := s |}])
      with 1.
    lia.
  - exists code. split; [|done].
    unfold v, append_turn; simpl. fold c. rewrite Hcode.
    by rewrite (supported_truthy _ Hin).
Qed.

(** X12. Whatever requests are served and however they end, every
    session in the store has between one and ten turns and a supported
    language, provided the sessions there at the start did (as with an
    empty store): the program never stores an empty session. *)
Theorem stored_sessions_wellformed (reqs : list Request) (w : World) :
  store_wellformed (redis w) ->
  store_wellformed (redis (serve_all reqs w)).
Proof.
  revert w. induction reqs as [|q reqs IH]; intros w Hw; simpl; [done|].
  apply IH. by apply generate_response_preserves_wellformed.
Qed.

Lemma stored_sessions_wellformed_witness :
  store_wellformed (redis (serve_all sample_requests two_requests_world)).
Proof.
  apply (stored_sessions_wellformed sample_requests two_requests_world).
  intros key c expires H. simpl in H. by rewrite lookup_empty in H.
Defined.

Lemma wellformed_sticky store key c expires :
  store_wellformed store -> store !! key = Some (c, expires) ->
  needs_detection c = false.
Proof.
  intros Hw Hk. destruct (Hw _ _ _ Hk) as (Hlen & code & Hc & Hin).
  apply needs_detection_false. split.
  - rewrite Hc. by apply supported_truthy.
  - intros E. rewrite E in Hlen. simpl in Hlen. lia.
Qed.

(** X13. First detection wins: in a store the program has written, a
    request for a phone number whose session stays unexpired until the
    request ends makes no detection call, and the session it leaves has
    the language it found, whether the request succeeds or degrades. *)
Theorem live_session_keeps_language (message phone business_id : string)
    (w : World) (c : Context) (expires : nat) :
  store_wellformed (redis w) ->
  redis w !! context_key phone = Some (c, expires) ->
  let w' := (generate_response message phone business_id w).2 in
  clock w' < expires ->
  (forall text rep, ev (detection_call text) rep ∉ new_events w w')
  /\ language (view (redis w') phone (clock w')) = language c.
Proof.
  intros Hw Hk w' Hlive.
  pose proof (wellformed_sticky _ _ _ _ Hw Hk) as Hn.
  split.
  - apply (sticky_request_skips_detection message phone business_id w).
    intros t Ht. fold w' in Ht. by rewrite (view_live _ _ _ _ _ Hk) by lia.
  - subst w'. revert Hlive.
    destruct (generate_response_served message phone business_id w)
      as (s & w' & He & Hs).
    rewrite He. simpl. intros Hlive.
    destruct Hs as [Hr Hq|a1 t1 rep c1 Hr Ht Hq|a1 t1 rep r' c1 Hr Ht Hq
                   |a1 t1 rep r' a2 t2 c1 v Hr Ht Ht2 Hq
                   |a1 t1 rep a2 t2 a3 c1 v Ht Ht2 Hq].
    1-4: destruct Hq as (-> & _); by rewrite (view_live _ _ _ _ _ Hk).
    destruct Hq as (Hr & _).
    assert (Hv : redis w' !! context_key phone = Some (v, clock w' + 3600))
      by (rewrite Hr; apply lookup_insert_eq).
    rewrite (view_live _ _ _ _ _ Hv) by lia.
    assert (c1 = c) as Hc1 by (apply (view_live _ _ _ _ _ Hk); lia).
    unfold v, append_turn; simpl. fold c1. rewrite Hc1.
    unfold resolved. rewrite Hn.
    destruct (proj1 (needs_detection_false c) Hn) as [-> _]. done.
Qed.

Lemma live_session_keeps_language_witness :
  let w := (generate_response "Bonjour" "+15550100" "demo"
              two_requests_world).2 in
  let w' := (generate_response "Merci" "+15550100" "demo" w).2 in
  (forall text rep, ev (detection_call text) rep ∉ new_events w w')
  /\ language (view (redis w') "+15550100" (clock w')) = Some "fr".
Proof.
  intros w w'.
  pose proof (live_session_keeps_language "Merci" "+15550100" "demo" w
                (view (redis w) "+15550100" (clock w)) (1003 + 3600)) as H.
  apply H.
  - apply (generate_response_preserves_wellformed
             "Bonjour" "+15550100" "demo" two_requests_world).
    intros key c expires Hk. simpl in Hk. by rewrite lookup_empty in Hk.
  - vm_compute. reflexivity.
  - vm_compute. lia.
Defined.

(** ** Conversations *)

Lemma served_trace message phone business_id w w' r :
  served message phone business_id w w' r ->
  clock w <= clock w' /\ exists evs, trace w' = trace w ++ evs.
Proof.
  intros [Hr Hq|a1 t1 rep c Hr Ht Hq|a1 t1 rep r' c Hr Ht Hq
         |a1 t1 rep r' a2 t2 c v Hr Ht Ht2 Hq
         |a1 t1 rep a2 t2 a3 c v Ht Ht2 Hq];
    destruct Hq as (_ & ? & ?); eauto.
Qed.

Lemma converse_cons phone business_id m rest w r w1 :
  generate_response m phone business_id w = (Return r, w1) ->
  converse phone business_id (m :: rest) w
  = match converse phone business_id rest w1 with
    | (Return rs, w') => (Return (r :: rs), w')
    | (Raise e, w') => (Raise e, w')
    end.
Proof.
  intros He. simpl. unfold bind at 1. rewrite He. unfold bind, ret.
  by destruct (converse phone business_id rest w1) as [[rs|e] w'].
Qed.

(** A conversation always returns one reply per message. *)
Lemma converse_run phone business_id msgs : forall w,
  exists replies w' evs,
    converse phone business_id msgs w = (Return replies, w')
    /\ length replies = length msgs
    /\ clock w <= clock w'
    /\ trace w' = trace w ++ evs.
Proof.
  induction msgs as [|m rest IH]; intros w.
  - exists [], w, []. repeat split; try done. by rewrite app_nil_r.
  - destruct (generate_response_served m phone business_id w)
      as (r & w1 & He & Hs).
    destruct (served_trace _ _ _ _ _ _ Hs) as (Hc1 & evs1 & Ht1).
    destruct (IH w1) as (rs & w' & evs2 & Hrest & Hlen & Hc2 & Ht2).
    exists (r :: rs), w', (evs1 ++ evs2).
    rewrite (converse_cons _ _ _ _ _ _ _ He), Hrest.
    split; [done|]. split; [by simpl; rewrite Hlen|]. split; [lia|].
    by rewrite Ht2, Ht1, app_assoc.
Qed.

Lemma new_events_split w w1 w' evs1 evs2 :
  trace w1 = trace w ++ evs1 -> trace w' = trace w1 ++ evs2 ->
  new_events w w' = new_events w w1 ++ new_events w1 w'.
Proof.
  intros H1 H2.
  rewrite (new_events_app _ _ _ H1), (new_events_app _ _ _ H2).
  apply new_events_app. by rewrite H2, H1, app_assoc.
Qed.

(** Requests on a session that stays live: each one appends its
    exchange and keeps the language. *)
Lemma converse_live phone business_id msgs :
  forall w replies w' c expires deadline,
    converse phone business_id msgs w = (Return replies, w') ->
    (forall e, e ∈ new_events w w' -> fatal e = false) ->
    clock w' < deadline -> deadline <= expires ->
    deadline <= clock w + 3600 ->
    redis w !! context_key phone = Some (c, expires) ->
    1 <= length (messages c) <= 10 ->
    PyStr.truthy (language c) = true ->
    exists turns c' expires',
      redis w' !! context_key phone = Some (c', expires')
      /\ deadline <= expires'
      /\ exchange <$> turns = zip msgs replies
      /\ messages c' = PyStr.last_n 10 (messages c ++ turns)
      /\ language c' = language c.
Proof.
  induction msgs as [|m rest IH];
    intros w replies w' c expires deadline Hrun Hnone Hend Hexp Hdl Hk Hlen Hlang.
  - injection Hrun as <- <-. exists [], c, expires.
    repeat split; try done.
    rewrite app_nil_r. symmetry. apply last_n_short. lia.
  - destruct (generate_response_served m phone business_id w)
      as (r & w1 & He & Hs).
    rewrite (converse_cons _ _ _ _ _ _ _ He) in Hrun.
    destruct (converse_run phone business_id rest w1)
      as (rs & w2 & evs2 & Hrest & _ & Hc2 & Ht2).
    rewrite Hrest in Hrun. injection Hrun as <- <-.
    destruct (served_trace _ _ _ _ _ _ Hs) as (Hc1 & evs1 & Ht1).
    rewrite (new_events_split _ _ _ _ _ Ht1 Ht2) in Hnone.
    assert (Hnone1 : forall e, e ∈ new_events w w1 -> fatal e = false)
      by (intros e Hin; apply Hnone, elem_of_app; by left).
    assert (Hnone2 : forall e, e ∈ new_events w1 w2 -> fatal e = false)
      by (intros e Hin; apply Hnone, elem_of_app; by right).
    destruct (served_success _ _ _ _ _ _ Hs Hnone1)
      as (a1 & t1 & rep & a2 & t2 & a3 & Ht & Ht2' & Hr & _).
    rewrite !(view_live _ _ _ _ _ Hk) in Hr by lia.
    assert (Hn : needs_detection c = false).
    { apply needs_detection_false. split; [done|].
      intros E. rewrite E in Hlen. simpl in Hlen. lia. }
    unfold resolved in Hr. rewrite Hn in Hr.
    set (v := append_turn c t2 m r (language c)) in *.
    destruct (IH w1 rs w2 v (clock w1 + 3600) deadline)
      as (turns & c' & e' & Hk' & He' & Hx & Hm & Hl); try done; try lia.
    + rewrite Hr. apply lookup_insert_eq.
    + unfold v, append_turn; simpl. rewrite length_last_n, length_app.
      change (length [{| timestamp := t2; user := m; assistant := r |}]) with 1.
      lia.
    + unfold v, append_turn; simpl. by rewrite !Hlang.
    + exists ({| timestamp := t2; user := m; assistant := r |} :: turns), c', e'.
      split; [done|]. split; [done|].
      split; [by simpl; rewrite <- Hx|].
      split.
      * rewrite Hm. unfold v, append_turn; simpl.
        by rewrite last_n_app, <- app_assoc.
      * rewrite Hl. unfold v, append_turn; simpl. by rewrite Hlang.
Qed.

(** X14. A conversation: requests from one phone number, none of whose
    storage and model calls fails, all served within 3600 seconds of the
    first. Every message gets a reply; the session stored at the end holds
    the most recent 10 of the turns found by the first request followed
    by one turn per message, each pairing a message with its reply, in
    order; and its language is the one the first request stored. *)
Theorem conversation_history (phone business_id m : string)
    (rest : list string) (replies : list (option string)) (w w' : World) :
  converse phone business_id (m :: rest) w = (Return replies, w') ->
  (forall e, e ∈ new_events w w' -> fatal e = false) ->
  clock w' < clock w + 3600 ->
  let first := generate_response m phone business_id w in
  let after := view (redis w') phone (clock w') in
  exists base_read turns,
    clock w <= base_read <= clock w'
    /\ length replies = length (m :: rest)
    /\ exchange <$> turns = zip (m :: rest) replies
    /\ messages after
       = PyStr.last_n 10 (messages (view (redis w) phone base_read) ++ turns)
    /\ language after
       = language (view (redis first.2) phone (clock first.2))
    /\ PyStr.truthy (language after) = true.
Proof.
  intros Hrun Hnone Hend first after. subst first after.
  destruct (generate_response_served m phone business_id w)
    as (r & w1 & He & Hs).
  rewrite He. simpl.
  rewrite (converse_cons _ _ _ _ _ _ _ He) in Hrun.
  destruct (converse_run phone business_id rest w1)
    as (rs & w2 & evs2 & Hrest & Hlen & Hc2 & Ht2).
  rewrite Hrest in Hrun. injection Hrun as <- <-.
  destruct (served_trace _ _ _ _ _ _ Hs) as (Hc1 & evs1 & Ht1).
  rewrite (new_events_split _ _ _ _ _ Ht1 Ht2) in Hnone.
  assert (Hnone1 : forall e, e ∈ new_events w w1 -> fatal e = false)
    by (intros e Hin; apply Hnone, elem_of_app; by left).
  assert (Hnone2 : forall e, e ∈ new_events w1 w2 -> fatal e = false)
    by (intros e Hin; apply Hnone, elem_of_app; by right).
  destruct (served_success _ _ _ _ _ _ Hs Hnone1)
    as (a1 & t1 & rep & a2 & t2 & a3 & Ht & Ht2' & Hr & _).
  cbv zeta in Hr.
  set (c1 := view (redis w) phone t1) in *.
  set (v := append_turn (view (redis w) phone t2) t2 m r
              (language (resolved c1 rep))) in *.
  assert (Hv : redis w1 !! context_key phone = Some (v, clock w1 + 3600))
    by (rewrite Hr; apply lookup_insert_eq).
  assert (Hvl : language v = language (resolved c1 rep)).
  { unfold v, append_turn; simpl. by rewrite resolved_truthy. }
  destruct (converse_live phone business_id rest w1 rs w2 v
              (clock w1 + 3600) (clock w + 3600))
    as (turns & c' & e' & Hk' & He' & Hx & Hm & Hl); try done; try lia.
  { unfold v, append_turn; simpl. rewrite length_last_n, length_app.
    change (length [{| timestamp := t2; user := m; assistant := r |}]) with 1.
    lia. }
  { rewrite Hvl. apply resolved_truthy. }
  exists t2, ({| timestamp := t2; user := m; assistant := r |} :: turns).
  rewrite (view_live _ _ _ _ _ Hk') by lia.
  rewrite (view_live _ _ _ _ _ Hv) by lia.
  split; [lia|]. split; [by simpl; rewrite Hlen|].
  split; [by simpl; rewrite <- Hx|].
  split.
  - rewrite Hm. unfold v, append_turn; simpl.
    by rewrite last_n_app, <- app_assoc.
  - split; [done|]. rewrite Hl, Hvl. apply resolved_truthy.
Qed.

Lemma conversation_history_witness :
  let w := two_requests_world in
  let run := converse "+15550100" "demo" ["Bonjour"; "Merci"] w in
  exists base_read turns,
    exchange <$> turns
    = zip ["Bonjour"; "Merci"] [Some "Salut!"; Some "De rien."]
    /\ messages (view (redis run.2) "+15550100" (clock run.2))
       = PyStr.last_n 10 (messages (view (redis w) "+15550100" base_read)
                          ++ turns).
Proof.
  intros w run.
  destruct (conversation_history "+15550100" "demo" "Bonjour" ["Merci"]
              [Some "Salut!"; Some "De rien."] w run.2)
    as (t & turns & _ & _ & Hx & Hm & _).
  - vm_compute. reflexivity.
  - apply no_fatal_forallb. vm_compute. reflexivity.
  - vm_compute. lia.
  - exists t, turns. split; [exact Hx|exact Hm].
Defined.

(** X15. First contact: a successful request for a phone number whose
    session is absent or already expired makes one detection call, on
    the message, right after reading the session, and stores a session
    with a single turn, the message and its reply, whose language is the
    detection result: the trimmed, lower-cased answer when that is a
    supported code, [en] when it is not or when the call failed. *)
Theorem first_contact (message phone business_id : string)
    (s : option string) (w w' : World) :
  generate_response message phone business_id w = (Return s, w') ->
  (forall e, e ∈ new_events w w' -> fatal e = false) ->
  (redis w !! context_key phone = None
   \/ exists v expires,
       redis w !! context_key phone = Some (v, expires)
       /\ expires <= clock w) ->
  exists rep now code,
    new_events w w' !! 1 = Some (ev (detection_call message) rep)
    /\ clock w <= now <= clock w'
    /\ redis w' !! context_key phone
       = Some ({| messages := [{| timestamp := now; user := message;
                                  assistant := s |}];
                  language := Some code;
                  business_context := [] |},
               clock w' + 3600)
    /\ code ∈ supported_codes
    /\ match rep with
       | Fault | Answer None => code = "en"
       | Answer (Some raw) =>
           (normalized raw ∈ supported_codes -> code = normalized raw)
           /\ (normalized raw ∉ supported_codes -> code = "en")
       end.
Proof.
  intros Hrun Hnone Hgone.
  destruct (generate_response_served message phone business_id w)
    as (s' & w1 & He & Hs).
  rewrite He in Hrun. injection Hrun as -> ->.
  destruct (served_success _ _ _ _ _ _ Hs Hnone)
    as (a1 & t1 & rep & a2 & t2 & a3 & Ht & Ht2 & Hr & _ & Htr).
  cbv zeta in Hr, Htr.
  assert (Hdef : forall t, clock w <= t -> view (redis w) phone t = default_context).
  { intros t Hle. unfold view.
    assert (lookup_live (redis w) (context_key phone) t = None) as ->; [|done].
    apply lookup_live_None.
    destruct Hgone as [?|(v & e & ? & ?)]; [by left|].
    right. exists v, e. split; [done|lia]. }
  rewrite !Hdef in Hr, Htr by lia.
  exists rep, t2, (detected rep).
  split; [by rewrite (new_events_app _ _ _ Htr)|].
  split; [lia|].
  split.
  { rewrite Hr, lookup_insert_eq. unfold append_turn.
    change (language (resolved default_context rep))
      with (Some (detected rep)).
    by rewrite (supported_truthy _ (detected_supported rep)). }
  split; [apply detected_supported|].
  destruct rep as [|[raw|]]; [done| |done]. unfold detected.
  destruct (in_LANGUAGE_MAP (normalized raw)) eqn:E.
  - apply in_LANGUAGE_MAP_supported in E. by split.
  - split; [|done]. intros H%in_LANGUAGE_MAP_supported. congruence.
Qed.

Lemma first_contact_witness :
  let w :=
    fresh_world
      [answers 0 ""; answers 1 "es"; answers 2 "Hello!"; answers 0 "";
       answers 0 ""] in
  let w' := (generate_response "Hola" "+15550100" "demo" w).2 in
  exists rep now,
    new_events w w' !! 1 = Some (ev (detection_call "Hola") rep)
    /\ redis w' !! context_key "+15550100"
       = Some ({| messages := [{| timestamp := now; user := "Hola";
                                  assistant := Some "Hello!" |}];
                  language := Some "en";
                  business_context := [] |},
               1003 + 3600).
Proof.
  intros w w'.
  destruct (first_contact "Hola" "+15550100" "demo" (Some "Hello!") w w')
    as (rep & now & code & Hd & _ & Hk & _ & Hcode).
  - vm_compute. reflexivity.
  - apply no_fatal_forallb. vm_compute. reflexivity.
  - left. reflexivity.
  - exists rep, now. split; [exact Hd|].
    assert (rep = Answer (Some "es")) as ->.
    { vm_compute in Hd. by injection Hd as <-. }
    destruct Hcode as [_ Hen].
    rewrite (Hen ltac:(rewrite <- in_LANGUAGE_MAP_supported; vm_compute;
                       discriminate)) in Hk.
    exact Hk.
Defined.
